(** * Manifest generation of aemscreens-offlineresources-generator

    A shallow embedding of [src/utils/pathUtils.js]: the [PathUtils] string
    helpers and the [ManifestGenerator] class that assembles the offline
    manifest of a page (page entry, resource entries, recursively merged
    fragments, aggregate timestamp).

    JavaScript strings are modelled as [string] (8-bit characters); the
    whitespace removed by [String.prototype.trim] is the ASCII whitespace
    (tab, line feed, vertical tab, form feed, carriage return, space).
    Timestamps ([Date.prototype.getTime]) are integers [Z]. *)

From Stdlib Require Import String Ascii List ZArith Bool Lia.
Import ListNotations.
Open Scope string_scope.

(* ================================================================== *)
(** ** JavaScript string primitives *)

Module JS.

Definition is_ws (c : ascii) : bool :=
  let n := nat_of_ascii c in
  (Nat.eqb n 32 || (Nat.leb 9 n && Nat.leb n 13))%bool.

Fixpoint ltrim (s : string) : string :=
  match s with
  | EmptyString => EmptyString
  | String c s' => if is_ws c then ltrim s' else s
  end.

Fixpoint rtrim (s : string) : string :=
  match s with
  | EmptyString => EmptyString
  | String c s' =>
      match rtrim s' with
      | EmptyString => if is_ws c then EmptyString else String c EmptyString
      | r => String c r
      end
  end.

(** [s.trim()] *)
Definition trim (s : string) : string := rtrim (ltrim s).

Fixpoint starts_with (p s : string) : bool :=
  match p, s with
  | EmptyString, _ => true
  | String a p', String b s' => Ascii.eqb a b && starts_with p' s'
  | String _ _, EmptyString => false
  end.

(** First position at which [sub] occurs in [s]. *)
Fixpoint index_of (s sub : string) : option nat :=
  if starts_with sub s then Some 0
  else match s with
       | EmptyString => None
       | String _ s' => option_map S (index_of s' sub)
       end.

(** [s.indexOf(sub)]: [-1] when absent. *)
Definition indexOf (s sub : string) : Z :=
  match index_of s sub with Some n => Z.of_nat n | None => (-1)%Z end.

(** [s.includes(sub)] *)
Definition includes (s sub : string) : bool :=
  match index_of s sub with Some _ => true | None => false end.

(** Last position of the character [c] in [s]. *)
Fixpoint last_index_char (c : ascii) (s : string) : option nat :=
  match s with
  | EmptyString => None
  | String a s' =>
      match last_index_char c s' with
      | Some n => Some (S n)
      | None => if Ascii.eqb a c then Some 0 else None
      end
  end.

(** [s.lastIndexOf(c)] for a one-character [c]. *)
Definition lastIndexOf (s : string) (c : ascii) : Z :=
  match last_index_char c s with Some n => Z.of_nat n | None => (-1)%Z end.

Definition clamp (len : nat) (i : Z) : nat :=
  Z.to_nat (Z.min (Z.max i 0) (Z.of_nat len)).

(** [s.substring(a, b)]: both bounds clamped to [0, length], swapped when
    [a > b]. *)
Definition substring2 (s : string) (a b : Z) : string :=
  let len := String.length s in
  let i := clamp len a in
  let j := clamp len b in
  String.substring (Nat.min i j) (Nat.max i j - Nat.min i j) s.

(** [s.substring(a)] *)
Definition substring1 (s : string) (a : Z) : string :=
  substring2 s a (Z.of_nat (String.length s)).

(** [s.slice(1)] *)
Definition slice1 (s : string) : string :=
  match s with EmptyString => EmptyString | String _ s' => s' end.

(** [s.split(c)[0]] for a one-character separator [c]. *)
Fixpoint split_first (c : ascii) (s : string) : string :=
  match s with
  | EmptyString => EmptyString
  | String a s' => if Ascii.eqb a c then EmptyString else String a (split_first c s')
  end.

(** Truthiness of a string. *)
Definition truthy_str (s : string) : bool :=
  match s with EmptyString => false | _ => true end.

End JS.

(* ================================================================== *)
(** ** Constants *)

(** Modelled from the spec: [Constants.MEDIA_PREFIX] of [constants.js], not
    part of the sources given; the spec's media paths have the form
    [/media_1234.png]. *)
Definition MEDIA_PREFIX : string := "/media_".

(* ================================================================== *)
(** ** PathUtils *)

Module PathUtils.
Import JS.

Definition getParentFromPath (path : string) : string :=
  substring2 path 0 (lastIndexOf path "/"%char).

Definition getCurrentPathName (path : string) : string :=
  substring1 path (lastIndexOf path "/"%char + 1).

Definition isMedia (resourcePath : string) : bool :=
  includes (trim resourcePath) MEDIA_PREFIX.

Definition getHashFromMedia (resourcePath : string) : string :=
  let trimmedResourcePath := trim resourcePath in
  substring2 trimmedResourcePath (Z.of_nat (String.length MEDIA_PREFIX))
    (indexOf trimmedResourcePath ".").

Definition extractMediaFromPath (resourcePath : string) : string :=
  let trimmedResourcePath := trim resourcePath in
  substring1 trimmedResourcePath (indexOf trimmedResourcePath MEDIA_PREFIX).

(** An entry [{ title, path }] of [getParentHierarchy]. *)
Record hentry := mkHEntry {
  title : string;
  hpath : string
}.

(** The [while] loop of [getParentHierarchy]: [hierarchy.push] appends.
    [fuel] bounds the number of iterations; the loop needs none of its own,
    each step shortening [currentParent] (see [hierarchyLoop_terminates]). *)
Fixpoint hierarchyLoop (fuel : nat) (currentParent : string) (hierarchy : list hentry)
    : option (list hentry) :=
  match fuel with
  | O => None
  | S fuel' =>
      if negb (String.eqb currentParent "/content") && negb (String.eqb currentParent "")
      then hierarchyLoop fuel' (getParentFromPath currentParent)
             (hierarchy ++ [mkHEntry (getCurrentPathName currentParent) currentParent])
      else Some hierarchy
  end.

(** [getParentHierarchy]: the loop, then [hierarchy.reverse()]. *)
Definition getParentHierarchy (path : string) : option (list hentry) :=
  option_map (@rev hentry)
    (hierarchyLoop (S (String.length path)) (getParentFromPath path) []).

Section Video.
(** [Constants.VIDEOS_IDENTIFIER] of [constants.js], not part of the sources
    given. *)
Variable VIDEOS_IDENTIFIER : string.

Definition isVideoUrl (url : string) : bool := includes (trim url) VIDEOS_IDENTIFIER.

End Video.

End PathUtils.

(* ================================================================== *)
(** ** ManifestGenerator *)

Module ManifestGenerator.
Import JS.

(** A manifest entry [{ path, timestamp?, hash? }]. Entry objects are never
    shared between two live maps of one level (each recursive call builds
    fresh ones, and a fragment's objects are only mutated by the level that
    merges them), so they are modelled as values. *)
(** A JS number read off a [Date]: [getTime()] gives an integral number of
    milliseconds, or [NaN] for a date that does not parse. *)
Inductive number := Num (z : Z) | NaN.

Record entry := mkEntry {
  path : string;
  timestamp : option number;
  hash : option string
}.

(** The manifest document of step 9 ([timestamp] is [mtimestamp] here). *)
Record manifest := mkManifest {
  version : string;
  mtimestamp : Z;
  entries : list entry;
  providers : list (string * string);
  defaultProvider : string
}.

(** The per-page metadata of [manifestMap]: each category is the parsed
    JSON list, [None] when the key is absent (destructuring default ['[]']). *)
Record metadata := mkMetadata {
  dpath : string;
  scripts : option (list string);
  styles : option (list string);
  assets : option (list string);
  inlineImages : option (list string);
  dependencies : option (list string);
  fragments : option (list string)
}.

Definition parse (o : option (list string)) : list string :=
  match o with Some l => l | None => [] end.

(** Exceptions an invocation can end in: the HEAD probe rejecting, the
    destructuring of an [undefined] metadata record, and (for the model's
    fuel) a fragment recursion deeper than the fuel. *)
Inductive exn := Unavailable | TypeErrorNoData | OutOfFuel.

(** The async computations: a state counting the wall-clock reads, and
    exceptions. *)
Inductive res (A : Type) := Ok (a : A) (clk : nat) | Err (e : exn).
Arguments Ok {A} a clk.
Arguments Err {A} e.

Definition M (A : Type) : Type := nat -> res A.

Definition ret {A} (a : A) : M A := fun n => Ok a n.
Definition bind {A B} (m : M A) (k : A -> M B) : M B :=
  fun n => match m n with Ok a n' => k a n' | Err e => Err e end.
Definition throw {A} (e : exn) : M A := fun _ => Err e.

Notation "x <- m ;; k" := (bind m (fun x => k))
  (at level 61, m at next level, right associativity).
Notation "' p <- m ;; k" := (bind m (fun x => match x with p => k end))
  (at level 61, p pattern, m at next level, right associativity).

(** [Map] with insertion order: [set] of a present key replaces the value in
    place, of a new key appends. *)
Definition emap := list (string * entry).

Fixpoint map_set (m : emap) (k : string) (v : entry) : emap :=
  match m with
  | [] => [(k, v)]
  | (k', v') :: m' =>
      if String.eqb k k' then (k, v) :: m' else (k', v') :: map_set m' k v
  end.

Definition map_values (m : emap) : list entry := map snd m.

(** [new Set([...])]: first occurrence kept, in insertion order. *)
Definition set_add (s : list string) (x : string) : list string :=
  if existsb (String.eqb x) s then s else s ++ [x].

Definition new_Set (l : list string) : list string := fold_left set_add l [].

(** [trimImagesPath] applied by [forEach] to every item. *)
Definition trimImagesPath (item : string) : string :=
  let trimmedItem := trim item in
  let isRelative := match trimmedItem with
                    | String c _ => Ascii.eqb c "."%char
                    | EmptyString => false
                    end in
  let noDot := if isRelative then substring1 trimmedItem 1 else trimmedItem in
  split_first "?"%char noDot.

Definition isMedia (p : string) : bool := includes (trim p) MEDIA_PREFIX.

Definition getHashFromMedia (p : string) : string :=
  let path1 := trim p in
  substring2 path1 (Z.of_nat (String.length MEDIA_PREFIX)) (indexOf path1 ".").

(** [path.trim().substring(path.indexOf(MEDIA_PREFIX))]: the index is taken
    on the untrimmed string. *)
Definition extractMediaFromPath (p : string) : string :=
  substring1 (trim p) (indexOf p MEDIA_PREFIX).

Section Generator.

(** [FetchUtils.fetchDataWithMethod(host, path, method)]: [None] when the
    call rejects (resource unavailable), [Some h] for a response whose
    [last-modified] header is [h] ([None] for [null]). *)
Variable fetchDataWithMethod : string -> string -> string -> option (option string).
(** [GitUtils.isFileDirty(relativePath)] *)
Variable isFileDirty : string -> bool.
(** [new Date(date).getTime()]: [NaN] for a header that does not parse. *)
Variable dateGetTime : string -> ManifestGenerator.number.
(** [new Date().getTime()] at the [n]-th wall-clock read. *)
Variable clock : nat -> Z.

Definition now : M Z := fun n => Ok (clock n) (S n).

Definition fetchHead (host p : string) : M (option string) :=
  match fetchDataWithMethod host p "HEAD" with
  | None => throw Unavailable
  | Some h => ret h
  end.

Definition getPageJsonEntry (host p : string) (isHtmlUpdated : bool) : M entry :=
  let entryPath := p ++ ".html" in
  date <- fetchHead host entryPath ;;
  if isHtmlUpdated then
    t <- now ;; ret (mkEntry entryPath (Some (Num t)) None)
  else
    match date with
    | Some d => if truthy_str d then ret (mkEntry entryPath (Some (dateGetTime d)) None)
                else ret (mkEntry entryPath None None)
    | None => ret (mkEntry entryPath None None)
    end.

(** The body of the resource loop once a response (or a dirty file) is
    known: the entry pushed and the new [lastModified]. *)
Definition resourceEntry (parentPath r : string) (date : option string)
    (lastModified : Z) : entry * Z :=
  let resourceSubPath := trim r in
  if isMedia resourceSubPath then
    (mkEntry (parentPath ++ r) None (Some (getHashFromMedia resourceSubPath)), lastModified)
  else
    match date with
    | Some d =>
        if truthy_str d then
          let ts := dateGetTime d in
          (mkEntry r (Some ts) None,
           (* [timestamp > lastModified] is false for [NaN] *)
           match ts with
           | Num t => if (lastModified <? t)%Z then t else lastModified
           | NaN => lastModified
           end)
        else (mkEntry r None None, lastModified)
    | None => (mkEntry r None None, lastModified)
    end.

Fixpoint resourcesLoop (host parentPath : string) (rs : list string)
    (entriesJson : list entry) (lastModified : Z) : list entry * Z :=
  match rs with
  | [] => (entriesJson, lastModified)
  | r :: rs' =>
      let resourceSubPath := trim r in
      let push date :=
        let '(e, lm) := resourceEntry parentPath r date lastModified in
        resourcesLoop host parentPath rs' (entriesJson ++ [e]) lm in
      match fetchDataWithMethod host resourceSubPath "HEAD" with
      | None =>
          if negb (isFileDirty (slice1 resourceSubPath))
          then resourcesLoop host parentPath rs' entriesJson lastModified
          else push None
      | Some date => push date
      end
  end.

Definition createEntries (host p : string) (pageResources : list string)
    (isHtmlUpdated : bool) : M (list entry * Z) :=
  let parentPath := PathUtils.getParentFromPath p in
  pageEntryJson <- getPageJsonEntry host p isHtmlUpdated ;;
  let lastModified :=
    match timestamp pageEntryJson with
    | Some (Num t) => if negb (t =? 0)%Z && (0 <? t)%Z then t else 0%Z
    | Some NaN | None => 0%Z
    end in
  ret (resourcesLoop host parentPath pageResources [pageEntryJson] lastModified).

(** The rebasing of a fragment entry onto the including page [pagePath]. *)
Definition rebase (pagePath : string) (e : entry) : entry :=
  if isMedia (path e) then
    mkEntry (PathUtils.getParentFromPath pagePath ++ extractMediaFromPath (path e))
      (timestamp e) (hash e)
  else e.

Definition merge_entry (pagePath : string) (acc : emap) (e : entry) : emap :=
  let e' := rebase pagePath e in map_set acc (path e') e'.

(** The [for (const fragmentPath of fragmentsList)] loop; [cm] is the
    recursive [createManifest] call. *)
Fixpoint mergeFragments (cm : string -> list string -> M (manifest * Z))
    (pagePath : string) (fragmentsList : list string) (allEntries : emap)
    (fragmentsLastModified : Z) : M (emap * Z) :=
  match fragmentsList with
  | [] => ret (allEntries, fragmentsLastModified)
  | fragmentPath :: rest =>
      '(m, fragmentLastModified) <- cm fragmentPath [fragmentPath ++ ".plain.html"] ;;
      mergeFragments cm pagePath rest
        (fold_left (merge_entry pagePath) (entries m) allEntries)
        (Z.max fragmentsLastModified fragmentLastModified)
  end.

(** [createManifest]; [fuel] bounds the fragment recursion depth (the source
    has none: a fragment cycle recurses without end). *)
Fixpoint createManifest (fuel : nat) (host : string)
    (manifestMap : string -> option metadata) (pagePath : string)
    (isHtmlUpdatedMap : string -> bool) (additionalAssets : list string)
    : M (manifest * Z) :=
  match fuel with
  | O => throw OutOfFuel
  | S fuel' =>
    match manifestMap pagePath with
    | None => throw TypeErrorNoData
    | Some data =>
      let scriptsList := parse (scripts data) in
      let stylesList := parse (styles data) in
      let assetsList := map trimImagesPath (parse (assets data)) in
      let inlineImagesList := map trimImagesPath (parse (inlineImages data)) in
      let dependenciesList := parse (dependencies data) in
      let pageResources := new_Set (scriptsList ++ stylesList ++ assetsList
                             ++ inlineImagesList ++ dependenciesList ++ additionalAssets) in
      '(es, lastModified) <- createEntries host (dpath data) pageResources
                                (isHtmlUpdatedMap (dpath data)) ;;
      let allEntries := fold_left (fun acc e => map_set acc (path e) e) es [] in
      let fragmentsList := parse (fragments data) in
      '(allEntries', fragmentsLastModified) <-
         mergeFragments (fun f add => createManifest fuel' host manifestMap f isHtmlUpdatedMap add)
           pagePath fragmentsList allEntries 0 ;;
      let ts := Z.max lastModified fragmentsLastModified in
      ret (mkManifest "3.0" ts (map_values allEntries') [("franklin", "/")] "franklin", ts)
    end
  end.

End Generator.

End ManifestGenerator.

(* ================================================================== *)
(** ** Traces of an invocation *)

(** Two views of one [createManifest] invocation, used to state what the
    manifest is computed from: every entry built (also inside fragments,
    recursively, and also those a later [set] overwrites), and the entries in
    the order the top-level merge map processes them. *)
Module Trace.
Import ManifestGenerator.

Definition ts_step (acc : Z) (e : entry) : Z :=
  match timestamp e with Some (Num t) => Z.max acc t | Some NaN | None => acc end.

(** Maximum of [0] and of the timestamps carried by the entries of [l]. *)
Definition max_ts (l : list entry) : Z := fold_left ts_step l 0%Z.

(** The entry of [l] with path [q] that comes last. *)
Definition last_with_path (q : string) (l : list entry) : option entry :=
  fold_left (fun acc e => if String.eqb (path e) q then Some e else acc) l None.

(** The entry of a manifest's list with path [q] (the first one). *)
Definition find_path (q : string) (l : list entry) : option entry :=
  find (fun e => String.eqb (path e) q) l.

(** [allEntries.set(entry.path, entry)] *)
Definition set_by_path (acc : emap) (e : entry) : emap := map_set acc (path e) e.

(** A merge map whose keys are pairwise distinct and are the paths of their
    values. *)
Definition keyed (m : emap) : Prop :=
  Forall (fun kv => fst kv = path (snd kv)) m /\ NoDup (map fst m).

(** The resource set of [createManifest] for [data]. *)
Definition resourceSet (data : metadata) (additionalAssets : list string) : list string :=
  new_Set (parse (scripts data) ++ parse (styles data)
           ++ map trimImagesPath (parse (assets data))
           ++ map trimImagesPath (parse (inlineImages data))
           ++ parse (dependencies data) ++ additionalAssets).

Section Trace.
Variable fetchDataWithMethod : string -> string -> string -> option (option string).
Variable isFileDirty : string -> bool.
Variable dateGetTime : string -> ManifestGenerator.number.
Variable clock : nat -> Z.

Fixpoint builtFragments (bc : string -> list string -> M (list entry))
    (fragmentsList : list string) : M (list entry) :=
  match fragmentsList with
  | [] => ret []
  | f :: rest =>
      l <- bc f [f ++ ".plain.html"] ;;
      l' <- builtFragments bc rest ;;
      ret (l ++ l')%list
  end.

(** Every entry built by an invocation, in build order. *)
Fixpoint builtEntries (fuel : nat) (host : string)
    (manifestMap : string -> option metadata) (pagePath : string)
    (isHtmlUpdatedMap : string -> bool) (additionalAssets : list string)
    : M (list entry) :=
  match fuel with
  | O => throw OutOfFuel
  | S fuel' =>
    match manifestMap pagePath with
    | None => throw TypeErrorNoData
    | Some data =>
      '(es, _) <- createEntries fetchDataWithMethod isFileDirty dateGetTime clock host
                    (dpath data) (resourceSet data additionalAssets)
                    (isHtmlUpdatedMap (dpath data)) ;;
      l <- builtFragments
             (fun f add => builtEntries fuel' host manifestMap f isHtmlUpdatedMap add)
             (parse (fragments data)) ;;
      ret (es ++ l)%list
    end
  end.

Fixpoint processedFragments (cm : string -> list string -> M (manifest * Z))
    (pagePath : string) (fragmentsList : list string) : M (list entry) :=
  match fragmentsList with
  | [] => ret []
  | f :: rest =>
      '(m, _) <- cm f [f ++ ".plain.html"] ;;
      l <- processedFragments cm pagePath rest ;;
      ret (map (rebase pagePath) (entries m) ++ l)%list
  end.

(** The entries the top-level merge map receives, in order: the page entry,
    the resource entries, then each fragment's entries (rebased), fragment
    after fragment. *)
Definition processed (fuel : nat) (host : string)
    (manifestMap : string -> option metadata) (pagePath : string)
    (isHtmlUpdatedMap : string -> bool) (additionalAssets : list string)
    : M (list entry) :=
  match fuel with
  | O => throw OutOfFuel
  | S fuel' =>
    match manifestMap pagePath with
    | None => throw TypeErrorNoData
    | Some data =>
      '(es, _) <- createEntries fetchDataWithMethod isFileDirty dateGetTime clock host
                    (dpath data) (resourceSet data additionalAssets)
                    (isHtmlUpdatedMap (dpath data)) ;;
      l <- processedFragments
             (fun f add => createManifest fetchDataWithMethod isFileDirty dateGetTime clock
                             fuel' host manifestMap f isHtmlUpdatedMap add)
             pagePath (parse (fragments data)) ;;
      ret (es ++ l)%list
    end
  end.

(** A resource is kept when its HEAD probe answers, or when it is
    unavailable but dirty in git. *)
Definition kept (host : string) (r : string) : bool :=
  match fetchDataWithMethod host (JS.trim r) "HEAD" with
  | Some _ => true
  | None => isFileDirty (JS.slice1 (JS.trim r))
  end.

(** The manifest path of a kept resource of a page in [parentPath]. *)
Definition resource_path (parentPath r : string) : string :=
  if isMedia (JS.trim r) then (parentPath ++ r)%string else r.

End Trace.

(** Related results: both normal with the same clock state and related
    values, or both the same exception. *)
Definition res_rel {A B} (R : A -> B -> Prop) (r1 : res A) (r2 : res B) : Prop :=
  match r1, r2 with
  | Ok a n1, Ok b n2 => n1 = n2 /\ R a b
  | Err e1, Err e2 => e1 = e2
  | _, _ => False
  end.

(** Two entries of runs that differ only in the wall clock: same path and
    hash, and the same timestamp unless both are readings of the clock at
    the same read. *)
Definition clock_rel (clock1 clock2 : nat -> Z) (a b : entry) : Prop :=
  path a = path b /\ hash a = hash b /\
  (timestamp a = timestamp b \/
   exists k, timestamp a = Some (Num (clock1 k)) /\ timestamp b = Some (Num (clock2 k))).

End Trace.

(* ================================================================== *)
(** ** Ancestor chains *)

Module Hierarchy.
Import PathUtils.

(** The path [r/s1/s2/...] built from the root [r] and the segments. *)
Definition join (r : string) (segs : list string) : string :=
  fold_left (fun acc s => acc ++ "/" ++ s) segs r.

(** The ancestors [r/s1], [r/s1/s2], ..., root to leaf, each titled with
    its last segment. *)
Fixpoint chain (r : string) (segs : list string) : list hentry :=
  match segs with
  | [] => []
  | s :: t => mkHEntry s (r ++ "/" ++ s) :: chain (r ++ "/" ++ s) t
  end.

End Hierarchy.

(* ================================================================== *)
(** ** Concrete inputs *)

Module Scenarios.
Import ManifestGenerator.

Definition md (p : string) (deps frs : list string) : metadata :=
  mkMetadata p None None None None (Some deps) (Some frs).

(** The page [/a/b/page] includes the fragment [/frag], whose dependency
    list holds the media path [" /media_12.png"]. *)
Definition mm_frag (q : string) : option metadata :=
  if String.eqb q "/a/b/page" then Some (md "/a/b/page" [] ["/frag"])
  else if String.eqb q "/frag" then Some (md "/frag" [" /media_12.png"] [])
  else None.

(** The page [/a/b/page] includes the fragment [/a/frag]; neither has
    resources. *)
Definition mm_frag2 (q : string) : option metadata :=
  if String.eqb q "/a/b/page" then Some (md "/a/b/page" [] ["/a/frag"])
  else if String.eqb q "/a/frag" then Some (md "/a/frag" [] [])
  else None.

(** The page [/a/b/page] has the script [/bad.js] and includes the fragment
    [/a/frag], which has no resources. *)
Definition mm_bad (q : string) : option metadata :=
  if String.eqb q "/a/b/page" then Some (md "/a/b/page" ["/bad.js"] ["/a/frag"])
  else if String.eqb q "/a/frag" then Some (md "/a/frag" [] [])
  else None.

(** The page [/a/b/page] has the script [/x.js] and the media dependency
    [/media_3.png], and includes the fragment [/frag] of [mm_frag]. *)
Definition mm_mixed (q : string) : option metadata :=
  if String.eqb q "/a/b/page" then Some (md "/a/b/page" ["/x.js"; "/media_3.png"] ["/frag"])
  else mm_frag q.

(** The page [/a/b/page] has the script [/x.js] and the resource
    [/a/frag.html], and includes the fragment [/a/frag], which has the
    script [/x.js] too: both paths are processed twice. *)
Definition mm_dup (q : string) : option metadata :=
  if String.eqb q "/a/b/page" then Some (md "/a/b/page" ["/x.js"; "/a/frag.html"] ["/a/frag"])
  else if String.eqb q "/a/frag" then Some (md "/a/frag" ["/x.js"] [])
  else None.

(** A page [/p] with no resources. *)
Definition mm_single (q : string) : option metadata :=
  if String.eqb q "/p" then Some (md "/p" [] []) else None.

(** A page [/a/media_wall] with no resources. *)
Definition mm_media_page (q : string) : option metadata :=
  if String.eqb q "/a/media_wall" then Some (md "/a/media_wall" [] []) else None.

(** Every HEAD probe answers, without a [last-modified] header. *)
Definition fetch_no_header (host p meth : string) : option (option string) :=
  Some None.

(** Every HEAD probe answers with the same [last-modified] header [d]. *)
Definition fetch_header (d host p meth : string) : option (option string) :=
  Some (Some d).

(** Every HEAD probe rejects. *)
Definition fetch_reject (host p meth : string) : option (option string) := None.

(** Only [/gone.js] is unavailable. *)
Definition fetch_gone (host p meth : string) : option (option string) :=
  if String.eqb p "/gone.js" then None else Some (Some "Mon, 01 Jan 2024 00:00:00 GMT").

(** [/a/b/page.html] was last modified in 1969, [/a/frag.html] in 2024, the
    other probes answer without a header. *)
Definition fetch_by_path (host p meth : string) : option (option string) :=
  if String.eqb p "/a/b/page.html" then Some (Some "Wed, 31 Dec 1969 23:59:59 GMT")
  else if String.eqb p "/a/frag.html" then Some (Some "Mon, 01 Jan 2024 00:00:00 GMT")
  else Some None.

(** As [fetch_by_path], except that [/bad.js] answers with the header
    [garbage], which does not parse as a date. *)
Definition fetch_garbage (host p meth : string) : option (option string) :=
  if String.eqb p "/bad.js" then Some (Some "garbage") else fetch_by_path host p meth.

Definition never_dirty (_ : string) : bool := false.

(** [new Date(d).getTime()] on the two header values used here; any other
    header (e.g. [garbage]) does not parse. *)
Definition date_table (d : string) : number :=
  if String.eqb d "Mon, 01 Jan 2024 00:00:00 GMT" then Num 1704067200000%Z
  else if String.eqb d "Wed, 31 Dec 1969 23:59:59 GMT" then Num (-1000)%Z
  else NaN.

(** A wall clock whose [n]-th read gives [z + n]. *)
Definition clock_from (z : Z) (n : nat) : Z := (z + Z.of_nat n)%Z.

Definition no_updates (_ : string) : bool := false.

Definition frag_updated (q : string) : bool := String.eqb q "/a/frag".

End Scenarios.

(* ================================================================== *)
(** ** Properties of the string primitives *)

Module JSFacts.
Import JS.

Fixpoint all_chars (f : ascii -> bool) (s : string) : bool :=
  match s with
  | EmptyString => true
  | String c s' => f c && all_chars f s'
  end.

Definition no_ws (s : string) : bool := all_chars (fun c => negb (is_ws c)) s.

Lemma starts_with_rtrim (sub x : string) :
  no_ws sub = true -> starts_with sub (rtrim x) = starts_with sub x.
Proof.
  revert sub; induction x as [|c x IH]; intros sub Hsub; [reflexivity|].
  destruct sub as [|a sub']; [destruct (rtrim (String c x)); reflexivity|].
  simpl in Hsub; apply andb_prop in Hsub as [Ha Hsub'].
  specialize (IH sub' Hsub').
  simpl. destruct (rtrim x) as [|c' r] eqn:Hr.
  - destruct (is_ws c) eqn:Hc.
    + destruct (Ascii.eqb a c) eqn:Hac; [|reflexivity].
      apply Ascii.eqb_eq in Hac; subst; rewrite Hc in Ha; discriminate.
    + simpl. rewrite <- IH. reflexivity.
  - simpl. rewrite IH. reflexivity.
Qed.

Lemma index_of_empty (sub : string) :
  sub <> EmptyString -> index_of EmptyString sub = None.
Proof. destruct sub; [congruence|reflexivity]. Qed.

(** Trailing whitespace never moves the first occurrence of a non-empty
    whitespace-free pattern. *)
Lemma index_of_rtrim (s sub : string) :
  sub <> EmptyString -> no_ws sub = true ->
  index_of (rtrim s) sub = index_of s sub.
Proof.
  intros Hne Hws; induction s as [|c s IH]; [reflexivity|].
  pose proof (starts_with_rtrim sub (String c s) Hws) as Hst.
  change (index_of (String c s) sub) with
    (if starts_with sub (String c s) then Some 0
     else option_map S (index_of s sub)).
  rewrite <- Hst, <- IH. simpl rtrim. simpl rtrim in Hst.
  destruct (rtrim s) as [|c' r] eqn:Hr.
  - destruct (is_ws c).
    + destruct sub as [|a sub]; [congruence|reflexivity].
    + destruct sub as [|a sub]; [congruence|reflexivity].
  - reflexivity.
Qed.

Lemma substring_0_length (s : string) :
  String.substring 0 (String.length s) s = s.
Proof. induction s; simpl; [reflexivity|now rewrite IHs]. Qed.

Lemma substring_app (p h r : string) :
  String.substring (String.length p) (String.length h) (p ++ h ++ r) = h.
Proof.
  induction p as [|c p IH]; simpl; [|exact IH].
  induction h as [|c h IH]; simpl; [destruct r; reflexivity|now rewrite IH].
Qed.

Lemma length_app (s t : string) :
  String.length (s ++ t) = String.length s + String.length t.
Proof. induction s; simpl; auto. Qed.

Lemma starts_with_dot_free (p x : string) :
  all_chars (fun c => negb (Ascii.eqb c "."%char)) p = true ->
  p <> EmptyString -> starts_with "." (p ++ x) = false.
Proof.
  destruct p as [|c p]; [congruence|]. intros H _.
  destruct (Ascii.eqb_spec c "."%char) as [->|Hc]; [discriminate|].
  change (String c p ++ x) with (String c (p ++ x)).
  change (starts_with "." (String c (p ++ x))) with
    (Ascii.eqb "." c && starts_with "" (p ++ x)).
  rewrite Ascii.eqb_sym. apply Ascii.eqb_neq in Hc. rewrite Hc. reflexivity.
Qed.

(** The first ['.'] of [p ++ x], for [p] free of ['.']. *)
Lemma index_of_dot_app (p x : string) :
  all_chars (fun c => negb (Ascii.eqb c "."%char)) p = true ->
  index_of (p ++ x) "." = option_map (Nat.add (String.length p)) (index_of x ".").
Proof.
  induction p as [|c p IH]; intros H.
  - simpl. destruct (index_of x "."); reflexivity.
  - pose proof (starts_with_dot_free (String c p) x H ltac:(discriminate)) as Hs.
    simpl in H; apply andb_prop in H as [_ H].
    change (String c p ++ x) with (String c (p ++ x)) in Hs |- *.
    change (index_of (String c (p ++ x)) ".") with
      (if starts_with "." (String c (p ++ x)) then Some 0
       else option_map S (index_of (p ++ x) ".")).
    rewrite Hs, (IH H).
    destruct (index_of x "."); reflexivity.
Qed.

End JSFacts.

Lemma clamp_le (len k : nat) : k <= len -> JS.clamp len (Z.of_nat k) = k.
Proof. intros H. unfold JS.clamp. lia. Qed.

Lemma all_chars_app (f : ascii -> bool) (s t : string) :
  JSFacts.all_chars f s = true -> JSFacts.all_chars f t = true ->
  JSFacts.all_chars f (s ++ t) = true.
Proof.
  induction s as [|c s IH]; simpl; [auto|].
  intros H Ht; apply andb_prop in H as [Hc Hs]. rewrite Hc; simpl; auto.
Qed.

Lemma substring1_neg (t : string) : JS.substring1 t (-1) = t.
Proof.
  unfold JS.substring1, JS.substring2.
  rewrite (clamp_le _ _ (le_n _)).
  replace (JS.clamp (String.length t) (-1)) with 0 by (unfold JS.clamp; lia).
  rewrite Nat.min_0_l, Nat.max_0_l, Nat.sub_0_r.
  apply JSFacts.substring_0_length.
Qed.

Lemma getHashFromMedia_same (s : string) :
  PathUtils.getHashFromMedia s = ManifestGenerator.getHashFromMedia s.
Proof. reflexivity. Qed.

(** C10. For an input without leading whitespace, the duplicated
    [ManifestGenerator.extractMediaFromPath] (index taken on the untrimmed
    string) returns what [PathUtils.extractMediaFromPath] returns: the trimmed
    string from the media-prefix marker on, or the whole trimmed string when
    the marker is absent. *)
Theorem extractMediaFromPath_agree (s : string) :
  JS.ltrim s = s ->
  ManifestGenerator.extractMediaFromPath s = PathUtils.extractMediaFromPath s /\
  PathUtils.extractMediaFromPath s =
    (if JS.includes (JS.trim s) MEDIA_PREFIX
     then JS.substring1 (JS.trim s) (JS.indexOf (JS.trim s) MEDIA_PREFIX)
     else JS.trim s).
Proof.
  intros Hl.
  assert (Ht : JS.trim s = JS.rtrim s) by (unfold JS.trim; now rewrite Hl).
  assert (Hi : JS.index_of (JS.trim s) MEDIA_PREFIX = JS.index_of s MEDIA_PREFIX).
  { rewrite Ht. apply JSFacts.index_of_rtrim; [discriminate|reflexivity]. }
  split.
  - unfold ManifestGenerator.extractMediaFromPath, PathUtils.extractMediaFromPath.
    unfold JS.indexOf. rewrite Hi. reflexivity.
  - unfold PathUtils.extractMediaFromPath, JS.includes, JS.indexOf.
    destruct (JS.index_of (JS.trim s) MEDIA_PREFIX); [reflexivity|].
    apply substring1_neg.
Qed.

Lemma extractMediaFromPath_agree_witness :
  JS.ltrim "/a/media_1.png " = "/a/media_1.png " /\
  ManifestGenerator.extractMediaFromPath "/a/media_1.png " =
    PathUtils.extractMediaFromPath "/a/media_1.png " /\
  PathUtils.extractMediaFromPath "/a/media_1.png " = "/media_1.png".
Proof.
  split; [reflexivity|]. split; [|vm_compute; reflexivity].
  apply (proj1 (extractMediaFromPath_agree "/a/media_1.png " eq_refl)).
Defined.

(** C4 (code_bug). [/x/media_12.png] is a media path ([isMedia] finds the
    marker anywhere, and the sibling [extractMediaFromPath] finds it at its
    index); the text between the marker and the first ['.'] after it is
    [12], but both copies of [getHashFromMedia] read from the fixed offset
    [length MEDIA_PREFIX] and return [a_12]. *)
Lemma getHashFromMedia_cex :
  ManifestGenerator.isMedia "/x/media_12.png" = true /\
  PathUtils.isMedia "/x/media_12.png" = true /\
  PathUtils.extractMediaFromPath "/x/media_12.png" = MEDIA_PREFIX ++ "12" ++ ".png" /\
  ManifestGenerator.getHashFromMedia "/x/media_12.png" = "a_12" /\
  PathUtils.getHashFromMedia "/x/media_12.png" = "a_12" /\
  "a_12" <> "12".
Proof. vm_compute. repeat split; discriminate. Qed.

(** C1 (counterexample). A page whose HTML was last modified before 1970:
    its only entry carries the timestamp [-1000], the manifest timestamp is
    [0], not the maximum [-1000] of the entries' timestamps. A page whose
    [last-modified] header does not parse: its only entry carries the
    timestamp [NaN] ([Math.max] over it is [NaN]), the manifest timestamp
    is [0]. *)
Lemma createManifest_timestamp_cex :
  ManifestGenerator.createManifest
    (Scenarios.fetch_header "Wed, 31 Dec 1969 23:59:59 GMT") Scenarios.never_dirty
    Scenarios.date_table (Scenarios.clock_from 0) 3 "host" Scenarios.mm_single "/p"
    Scenarios.no_updates [] 0
  = ManifestGenerator.Ok
      (ManifestGenerator.mkManifest "3.0" 0
         [ManifestGenerator.mkEntry "/p.html" (Some (ManifestGenerator.Num (-1000)%Z)) None]
         [("franklin", "/")] "franklin", 0%Z) 0 /\
  (0 <> -1000)%Z /\
  ManifestGenerator.createManifest
    (Scenarios.fetch_header "garbage") Scenarios.never_dirty
    Scenarios.date_table (Scenarios.clock_from 0) 3 "host" Scenarios.mm_single "/p"
    Scenarios.no_updates [] 0
  = ManifestGenerator.Ok
      (ManifestGenerator.mkManifest "3.0" 0
         [ManifestGenerator.mkEntry "/p.html" (Some ManifestGenerator.NaN) None]
         [("franklin", "/")] "franklin", 0%Z) 0.
Proof. split; [vm_compute; reflexivity|]. split; [lia|vm_compute; reflexivity]. Qed.

(** C2 (code_bug). A fragment [/frag] (parent path [""]) whose dependency
    is [" /media_12.png"] contributes the entry path [" /media_12.png"];
    merged into [/a/b/page] it is stored under [/a/bmedia_12.png], whereas
    [parentOf(pagePath)] followed by the media suffix is [/a/b/media_12.png]. *)
Lemma fragment_media_rebase_slip :
  ManifestGenerator.createManifest
    Scenarios.fetch_no_header Scenarios.never_dirty Scenarios.date_table
    (Scenarios.clock_from 0) 3 "host" Scenarios.mm_frag "/a/b/page"
    Scenarios.no_updates [] 0
  = ManifestGenerator.Ok
      (ManifestGenerator.mkManifest "3.0" 0
         [ManifestGenerator.mkEntry "/a/b/page.html" None None;
          ManifestGenerator.mkEntry "/frag.html" None None;
          ManifestGenerator.mkEntry "/a/bmedia_12.png" None (Some "12");
          ManifestGenerator.mkEntry "/frag.plain.html" None None]
         [("franklin", "/")] "franklin", 0%Z) 0 /\
  PathUtils.getParentFromPath "/a/b/page" ++ PathUtils.extractMediaFromPath " /media_12.png"
    = "/a/b/media_12.png".
Proof. split; vm_compute; reflexivity. Qed.

(** C3 (code_bug). When the HEAD probe of the page's HTML rejects, the
    rejection is not caught: [getPageJsonEntry], and with it
    [createManifest], ends in the exception instead of returning the page
    entry without a timestamp. *)
Lemma page_probe_rejection_propagates :
  ManifestGenerator.getPageJsonEntry Scenarios.fetch_reject Scenarios.date_table
    (Scenarios.clock_from 0) "host" "/p" false 0
  = ManifestGenerator.Err ManifestGenerator.Unavailable /\
  ManifestGenerator.createManifest
    Scenarios.fetch_reject Scenarios.never_dirty Scenarios.date_table
    (Scenarios.clock_from 0) 3 "host" Scenarios.mm_single "/p"
    Scenarios.no_updates [] 0
  = ManifestGenerator.Err ManifestGenerator.Unavailable.
Proof. split; vm_compute; reflexivity. Qed.

(** C6 (counterexample). The page [/a/media_wall] has the media path
    [/a/media_wall.html] as page entry, and that entry carries a timestamp. *)
Lemma media_page_entry_timestamp_cex :
  ManifestGenerator.createManifest
    (Scenarios.fetch_header "Mon, 01 Jan 2024 00:00:00 GMT") Scenarios.never_dirty
    Scenarios.date_table (Scenarios.clock_from 0) 3 "host" Scenarios.mm_media_page
    "/a/media_wall" Scenarios.no_updates [] 0
  = ManifestGenerator.Ok
      (ManifestGenerator.mkManifest "3.0" 1704067200000
         [ManifestGenerator.mkEntry "/a/media_wall.html" (Some (ManifestGenerator.Num 1704067200000%Z)) None]
         [("franklin", "/")] "franklin", 1704067200000%Z) 0 /\
  ManifestGenerator.isMedia "/a/media_wall.html" = true.
Proof. split; vm_compute; reflexivity. Qed.

(** C8 (counterexample). The top page [/a/b/page] is not flagged as
    updated, its fragment [/a/frag] is: two runs that differ only in the
    wall clock return different entries lists (the fragment's page entry). *)
Lemma createManifest_clock_cex :
  Scenarios.frag_updated "/a/b/page" = false /\
  ManifestGenerator.createManifest
    Scenarios.fetch_no_header Scenarios.never_dirty Scenarios.date_table
    (Scenarios.clock_from 100) 3 "host" Scenarios.mm_frag2 "/a/b/page"
    Scenarios.frag_updated [] 0
  = ManifestGenerator.Ok
      (ManifestGenerator.mkManifest "3.0" 100
         [ManifestGenerator.mkEntry "/a/b/page.html" None None;
          ManifestGenerator.mkEntry "/a/frag.html" (Some (ManifestGenerator.Num 100%Z)) None;
          ManifestGenerator.mkEntry "/a/frag.plain.html" None None]
         [("franklin", "/")] "franklin", 100%Z) 1 /\
  ManifestGenerator.createManifest
    Scenarios.fetch_no_header Scenarios.never_dirty Scenarios.date_table
    (Scenarios.clock_from 200) 3 "host" Scenarios.mm_frag2 "/a/b/page"
    Scenarios.frag_updated [] 0
  = ManifestGenerator.Ok
      (ManifestGenerator.mkManifest "3.0" 200
         [ManifestGenerator.mkEntry "/a/b/page.html" None None;
          ManifestGenerator.mkEntry "/a/frag.html" (Some (ManifestGenerator.Num 200%Z)) None;
          ManifestGenerator.mkEntry "/a/frag.plain.html" None None]
         [("franklin", "/")] "franklin", 200%Z) 1.
Proof. repeat split; vm_compute; reflexivity. Qed.

Section Skip.
Import ManifestGenerator.

Variable fetchDataWithMethod : string -> string -> string -> option (option string).
Variable isFileDirty : string -> bool.
Variable dateGetTime : string -> ManifestGenerator.number.
Variable clock : nat -> Z.

Lemma resourcesLoop_skip (host parentPath r : string) (l1 l2 : list string) :
  fetchDataWithMethod host (JS.trim r) "HEAD" = None ->
  isFileDirty (JS.slice1 (JS.trim r)) = false ->
  forall acc lm,
  resourcesLoop fetchDataWithMethod isFileDirty dateGetTime host parentPath
    (l1 ++ r :: l2) acc lm
  = resourcesLoop fetchDataWithMethod isFileDirty dateGetTime host parentPath
    (l1 ++ l2) acc lm.
Proof.
  intros Hf Hd. induction l1 as [|a l1 IH]; intros acc lm.
  - simpl. rewrite Hf, Hd. reflexivity.
  - simpl. destruct (fetchDataWithMethod host (JS.trim a) "HEAD") as [d|].
    + destruct (resourceEntry dateGetTime parentPath a d lm). apply IH.
    + destruct (negb (isFileDirty (JS.slice1 (JS.trim a)))); [apply IH|].
      destruct (resourceEntry dateGetTime parentPath a None lm). apply IH.
Qed.

(** C5. A resource whose HEAD probe rejects and which is not a dirty file
    is skipped: [createEntries] returns exactly what it returns without that
    resource in the set (same entries, same [lastModified], same outcome, so
    no entry for it, no effect on the timestamp and no exception). *)
Theorem createEntries_skips_unavailable (host p r : string) (l1 l2 : list string)
    (isHtmlUpdated : bool) :
  fetchDataWithMethod host (JS.trim r) "HEAD" = None ->
  isFileDirty (JS.slice1 (JS.trim r)) = false ->
  forall n,
  createEntries fetchDataWithMethod isFileDirty dateGetTime clock host p
    (l1 ++ r :: l2) isHtmlUpdated n
  = createEntries fetchDataWithMethod isFileDirty dateGetTime clock host p
    (l1 ++ l2) isHtmlUpdated n.
Proof.
  intros Hf Hd n. unfold createEntries, bind, ret.
  destruct (getPageJsonEntry fetchDataWithMethod dateGetTime clock host p isHtmlUpdated n);
    [|reflexivity].
  rewrite (resourcesLoop_skip _ _ _ _ _ Hf Hd). reflexivity.
Qed.

End Skip.

Lemma createEntries_skips_unavailable_witness :
  Scenarios.fetch_gone "host" (JS.trim " /gone.js") "HEAD" = None /\
  Scenarios.never_dirty (JS.slice1 (JS.trim " /gone.js")) = false /\
  ManifestGenerator.createEntries Scenarios.fetch_gone Scenarios.never_dirty
    Scenarios.date_table (Scenarios.clock_from 0) "host" "/a/page"
    (["/x.js"] ++ " /gone.js" :: ["/media_7.png"]) false 0
  = ManifestGenerator.createEntries Scenarios.fetch_gone Scenarios.never_dirty
    Scenarios.date_table (Scenarios.clock_from 0) "host" "/a/page"
    (["/x.js"] ++ ["/media_7.png"]) false 0.
Proof.
  split; [reflexivity|]. split; [reflexivity|].
  apply (createEntries_skips_unavailable Scenarios.fetch_gone Scenarios.never_dirty
           Scenarios.date_table (Scenarios.clock_from 0) "host" "/a/page" " /gone.js"
           ["/x.js"] ["/media_7.png"] false eq_refl eq_refl 0).
Defined.

(* ================================================================== *)
(** ** Timestamp aggregation *)

Section Timestamps.
Import ManifestGenerator Trace.

Variable fetchDataWithMethod : string -> string -> string -> option (option string).
Variable isFileDirty : string -> bool.
Variable dateGetTime : string -> ManifestGenerator.number.
Variable clock : nat -> Z.

Lemma fold_ts_step_ge (l : list entry) (a : Z) : (a <= fold_left ts_step l a)%Z.
Proof.
  revert a; induction l as [|e l IH]; intros a; simpl; [lia|].
  specialize (IH (ts_step a e)). unfold ts_step in *.
  destruct (timestamp e) as [[?|]|]; lia.
Qed.

Lemma max_ts_nonneg (l : list entry) : (0 <= max_ts l)%Z.
Proof. apply fold_ts_step_ge. Qed.

Lemma fold_ts_step_acc (l : list entry) (a : Z) :
  (0 <= a)%Z -> fold_left ts_step l a = Z.max a (max_ts l).
Proof.
  unfold max_ts. revert a; induction l as [|e l IH]; intros a Ha; simpl; [lia|].
  assert (H0 : (0 <= ts_step 0 e)%Z) by (unfold ts_step; destruct (timestamp e) as [[?|]|]; lia).
  assert (Ha' : (0 <= ts_step a e)%Z) by (unfold ts_step; destruct (timestamp e) as [[?|]|]; lia).
  rewrite (IH _ Ha'), (IH _ H0).
  pose proof (max_ts_nonneg l) as Hl. unfold max_ts in Hl.
  unfold ts_step; destruct (timestamp e) as [[?|]|]; lia.
Qed.

Lemma max_ts_app (l1 l2 : list entry) :
  max_ts (l1 ++ l2) = Z.max (max_ts l1) (max_ts l2).
Proof.
  unfold max_ts at 1. rewrite fold_left_app.
  apply fold_ts_step_acc, max_ts_nonneg.
Qed.

Lemma resourceEntry_ts (parentPath r : string) (date : option string) (lm : Z) :
  snd (resourceEntry dateGetTime parentPath r date lm)
  = ts_step lm (fst (resourceEntry dateGetTime parentPath r date lm)).
Proof.
  unfold resourceEntry, ts_step.
  destruct (isMedia (JS.trim r)); [reflexivity|].
  destruct date as [d|]; [|reflexivity].
  destruct (JS.truthy_str d); [|reflexivity]. simpl.
  destruct (dateGetTime d) as [t|]; simpl; [destruct (Z.ltb_spec lm t)|]; lia.
Qed.

Lemma resourcesLoop_ts (host parentPath : string) (rs : list string) :
  forall acc lm, lm = max_ts acc ->
  snd (resourcesLoop fetchDataWithMethod isFileDirty dateGetTime host parentPath rs acc lm)
  = max_ts (fst (resourcesLoop fetchDataWithMethod isFileDirty dateGetTime host parentPath rs acc lm)).
Proof.
  induction rs as [|r rs IH]; intros acc lm Hlm; simpl; [exact Hlm|].
  assert (Hpush : forall d,
    let '(e, lm') := resourceEntry dateGetTime parentPath r d lm in
    lm' = max_ts (acc ++ [e])).
  { intros d. pose proof (resourceEntry_ts parentPath r d lm) as E.
    destruct (resourceEntry dateGetTime parentPath r d lm) as [e lm'].
    simpl in E. unfold max_ts. rewrite fold_left_app. simpl.
    rewrite E, Hlm. reflexivity. }
  destruct (fetchDataWithMethod host (JS.trim r) "HEAD") as [d|].
  - specialize (Hpush d). destruct (resourceEntry dateGetTime parentPath r d lm).
    apply IH, Hpush.
  - destruct (negb (isFileDirty (JS.slice1 (JS.trim r)))); [apply IH, Hlm|].
    specialize (Hpush None). destruct (resourceEntry dateGetTime parentPath r None lm).
    apply IH, Hpush.
Qed.

Lemma createEntries_ts (host p : string) (rs : list string) (upd : bool)
    (n : nat) (es : list entry) (lm : Z) (n' : nat) :
  createEntries fetchDataWithMethod isFileDirty dateGetTime clock host p rs upd n
  = Ok (es, lm) n' ->
  lm = max_ts es.
Proof.
  unfold createEntries, bind, ret.
  destruct (getPageJsonEntry fetchDataWithMethod dateGetTime clock host p upd n)
    as [pe n1|]; [|discriminate].
  intros H; injection H as Hr _.
  match type of Hr with ?x = _ =>
    assert (E : snd x = max_ts (fst x)) by (apply resourcesLoop_ts;
      unfold max_ts, ts_step; simpl; destruct (timestamp pe) as [[t|]|]; [|reflexivity|reflexivity];
      destruct (Z.eqb_spec t 0), (Z.ltb_spec 0 t); simpl; lia) end.
  rewrite Hr in E. exact E.
Qed.

Lemma mergeFragments_built (cm : string -> list string -> M (manifest * Z))
    (bc : string -> list string -> M (list entry)) (p : string) :
  (forall f a k m t k', cm f a k = Ok (m, t) k' ->
     exists l, bc f a k = Ok l k' /\ t = max_ts l) ->
  forall fl acc z n acc' flm n', (0 <= z)%Z ->
  mergeFragments cm p fl acc z n = Ok (acc', flm) n' ->
  exists l, builtFragments bc fl n = Ok l n' /\ flm = Z.max z (max_ts l).
Proof.
  intros Hcm fl; induction fl as [|f fl IH]; intros acc z n acc' flm n' Hz H.
  - simpl in H. injection H as _ <- <-. exists []. split; [reflexivity|].
    unfold max_ts; simpl; lia.
  - simpl in H. unfold bind at 1 in H.
    destruct (cm f [f ++ ".plain.html"] n) as [[m t] k|] eqn:Ecm; [|discriminate].
    destruct (Hcm _ _ _ _ _ _ Ecm) as [l1 [Hbc Ht]].
    assert (Hz' : (0 <= Z.max z t)%Z) by lia.
    destruct (IH _ _ _ _ _ _ Hz' H) as [l2 [Hb2 Hflm]].
    exists (l1 ++ l2)%list. split.
    + simpl. unfold bind. rewrite Hbc, Hb2. reflexivity.
    + rewrite Hflm, max_ts_app, Ht. pose proof (max_ts_nonneg l1). lia.
Qed.

(** The manifest timestamp, as the aggregate returned beside it, is the
    maximum of [0] and of all timestamps built during the invocation. *)
Lemma createManifest_built (fuel : nat) :
  forall host mm p flags add n m ts n',
  createManifest fetchDataWithMethod isFileDirty dateGetTime clock fuel host mm p flags add n
  = Ok (m, ts) n' ->
  exists l,
    builtEntries fetchDataWithMethod isFileDirty dateGetTime clock fuel host mm p flags add n
    = Ok l n' /\ mtimestamp m = ts /\ ts = max_ts l.
Proof.
  induction fuel as [|fuel IH]; intros host mm p flags add n m ts n' H; [discriminate|].
  simpl in H |- *. destruct (mm p) as [data|]; [|discriminate].
  unfold bind at 1 in H. unfold bind at 1.
  unfold resourceSet.
  destruct (createEntries _ _ _ _ _ _ _ _ n) as [[es lm] n1|] eqn:Ece; [|discriminate].
  unfold bind at 1 in H.
  destruct (mergeFragments _ _ _ _ _ n1) as [[acc' flm] n2|] eqn:Emf; [|discriminate].
  injection H as <- <- <-.
  pose proof (createEntries_ts _ _ _ _ _ _ _ _ Ece) as Hlm.
  destruct (mergeFragments_built _
              (fun f a => builtEntries fetchDataWithMethod isFileDirty dateGetTime clock
                            fuel host mm f flags a) p
              (fun f a k m0 t k' Hc => let '(ex_intro _ l (conj Hb (conj _ Ht))) :=
                                           IH host mm f flags a k m0 t k' Hc in
                                       ex_intro _ l (conj Hb Ht))
              _ _ _ _ _ _ _ (Z.le_refl 0) Emf) as [lf [Hbf Hflm]].
  exists (es ++ lf)%list. unfold bind. rewrite Hbf. split; [reflexivity|].
  split; [reflexivity|].
  rewrite max_ts_app, Hlm, Hflm. pose proof (max_ts_nonneg lf). lia.
Qed.

End Timestamps.

Lemma max_ts_ge (l : list ManifestGenerator.entry) (e : ManifestGenerator.entry) (t : Z) :
  In e l -> ManifestGenerator.timestamp e = Some (ManifestGenerator.Num t) ->
  (t <= Trace.max_ts l)%Z.
Proof.
  intros Hin Ht. apply in_split in Hin as [l1 [l2 ->]].
  rewrite max_ts_app. change (e :: l2)%list with ([e] ++ l2)%list.
  rewrite max_ts_app. unfold Trace.max_ts at 2; simpl. unfold Trace.ts_step.
  rewrite Ht. lia.
Qed.

Lemma max_ts_none (l : list ManifestGenerator.entry) :
  Forall (fun e => ManifestGenerator.timestamp e = None) l -> Trace.max_ts l = 0%Z.
Proof.
  intros H. unfold Trace.max_ts. induction H as [|e l He _ IH]; [reflexivity|].
  simpl. unfold Trace.ts_step at 2. rewrite He. exact IH.
Qed.

(** C1 (amended). The manifest's [timestamp] equals the aggregate returned
    beside it, and both equal the maximum of [0] and of the numeric
    timestamps of all entries built during the invocation (the page entry,
    every resource entry built, every entry built inside fragments,
    recursively, including entries a later merge overwrites); entries with
    no timestamp or with the timestamp [NaN] (a [last-modified] header that
    does not parse) do not take part. In particular it is at least every
    numeric timestamp of such an entry, the page entry's included. *)
Theorem createManifest_timestamp_max
    (fetchDataWithMethod : string -> string -> string -> option (option string))
    (isFileDirty : string -> bool) (dateGetTime : string -> ManifestGenerator.number) (clock : nat -> Z)
    (fuel : nat) (host : string) (mm : string -> option ManifestGenerator.metadata)
    (p : string) (flags : string -> bool) (add : list string) (n : nat)
    (m : ManifestGenerator.manifest) (ts : Z) (n' : nat) :
  ManifestGenerator.createManifest fetchDataWithMethod isFileDirty dateGetTime clock
    fuel host mm p flags add n = ManifestGenerator.Ok (m, ts) n' ->
  exists l,
    Trace.builtEntries fetchDataWithMethod isFileDirty dateGetTime clock
      fuel host mm p flags add n = ManifestGenerator.Ok l n' /\
    ManifestGenerator.mtimestamp m = ts /\
    ts = Trace.max_ts l /\
    (forall e t, In e l -> ManifestGenerator.timestamp e = Some (ManifestGenerator.Num t) ->
                 (t <= ts)%Z).
Proof.
  intros H. destruct (createManifest_built _ _ _ _ _ _ _ _ _ _ _ _ _ _ H)
    as [l [Hb [Hm Hts]]].
  exists l. repeat split; auto.
  intros e t Hin Ht. rewrite Hts. exact (max_ts_ge l e t Hin Ht).
Qed.

Lemma createManifest_timestamp_max_witness :
  ManifestGenerator.createManifest Scenarios.fetch_garbage Scenarios.never_dirty
    Scenarios.date_table (Scenarios.clock_from 0) 3 "host" Scenarios.mm_bad "/a/b/page"
    Scenarios.no_updates [] 0
  = ManifestGenerator.Ok
      (ManifestGenerator.mkManifest "3.0" 1704067200000
         [ManifestGenerator.mkEntry "/a/b/page.html" (Some (ManifestGenerator.Num (-1000)%Z)) None;
          ManifestGenerator.mkEntry "/bad.js" (Some ManifestGenerator.NaN) None;
          ManifestGenerator.mkEntry "/a/frag.html" (Some (ManifestGenerator.Num 1704067200000%Z)) None;
          ManifestGenerator.mkEntry "/a/frag.plain.html" None None]
         [("franklin", "/")] "franklin", 1704067200000%Z) 0 /\
  Trace.builtEntries Scenarios.fetch_garbage Scenarios.never_dirty
    Scenarios.date_table (Scenarios.clock_from 0) 3 "host" Scenarios.mm_bad "/a/b/page"
    Scenarios.no_updates [] 0
  = ManifestGenerator.Ok
         [ManifestGenerator.mkEntry "/a/b/page.html" (Some (ManifestGenerator.Num (-1000)%Z)) None;
          ManifestGenerator.mkEntry "/bad.js" (Some ManifestGenerator.NaN) None;
          ManifestGenerator.mkEntry "/a/frag.html" (Some (ManifestGenerator.Num 1704067200000%Z)) None;
          ManifestGenerator.mkEntry "/a/frag.plain.html" None None] 0 /\
  exists l,
    Trace.builtEntries Scenarios.fetch_garbage Scenarios.never_dirty
      Scenarios.date_table (Scenarios.clock_from 0) 3 "host" Scenarios.mm_bad "/a/b/page"
      Scenarios.no_updates [] 0 = ManifestGenerator.Ok l 0 /\
    1704067200000%Z = 1704067200000%Z /\
    1704067200000%Z = Trace.max_ts l /\
    (forall e t, In e l -> ManifestGenerator.timestamp e = Some (ManifestGenerator.Num t) ->
                 (t <= 1704067200000)%Z).
Proof.
  assert (H : ManifestGenerator.createManifest Scenarios.fetch_garbage Scenarios.never_dirty
    Scenarios.date_table (Scenarios.clock_from 0) 3 "host" Scenarios.mm_bad "/a/b/page"
    Scenarios.no_updates [] 0
  = ManifestGenerator.Ok
      (ManifestGenerator.mkManifest "3.0" 1704067200000
         [ManifestGenerator.mkEntry "/a/b/page.html" (Some (ManifestGenerator.Num (-1000)%Z)) None;
          ManifestGenerator.mkEntry "/bad.js" (Some ManifestGenerator.NaN) None;
          ManifestGenerator.mkEntry "/a/frag.html" (Some (ManifestGenerator.Num 1704067200000%Z)) None;
          ManifestGenerator.mkEntry "/a/frag.plain.html" None None]
         [("franklin", "/")] "franklin", 1704067200000%Z) 0)
    by (vm_compute; reflexivity).
  split; [exact H|]. split; [vm_compute; reflexivity|].
  exact (createManifest_timestamp_max _ _ _ _ _ _ _ _ _ _ _ _ _ _ H).
Defined.

(** C9. The aggregate timestamp (and the manifest's [timestamp]) is never
    negative, and it is exactly [0] when no entry built during the
    invocation (page entry, resource entries, entries built inside
    fragments) carries a timestamp. *)
Theorem createManifest_timestamp_zero
    (fetchDataWithMethod : string -> string -> string -> option (option string))
    (isFileDirty : string -> bool) (dateGetTime : string -> ManifestGenerator.number) (clock : nat -> Z)
    (fuel : nat) (host : string) (mm : string -> option ManifestGenerator.metadata)
    (p : string) (flags : string -> bool) (add : list string) (n : nat)
    (m : ManifestGenerator.manifest) (ts : Z) (n' : nat) :
  ManifestGenerator.createManifest fetchDataWithMethod isFileDirty dateGetTime clock
    fuel host mm p flags add n = ManifestGenerator.Ok (m, ts) n' ->
  (0 <= ts)%Z /\ ManifestGenerator.mtimestamp m = ts /\
  exists l,
    Trace.builtEntries fetchDataWithMethod isFileDirty dateGetTime clock
      fuel host mm p flags add n = ManifestGenerator.Ok l n' /\
    (Forall (fun e => ManifestGenerator.timestamp e = None) l ->
     ts = 0%Z /\ ManifestGenerator.mtimestamp m = 0%Z).
Proof.
  intros H. destruct (createManifest_built _ _ _ _ _ _ _ _ _ _ _ _ _ _ H)
    as [l [Hb [Hm Hts]]].
  split; [rewrite Hts; apply max_ts_nonneg|]. split; [exact Hm|].
  exists l. split; [exact Hb|]. intros Hn.
  rewrite (max_ts_none l Hn) in Hts. subst ts. auto.
Qed.

Lemma createManifest_timestamp_zero_witness :
  ManifestGenerator.createManifest Scenarios.fetch_no_header Scenarios.never_dirty
    Scenarios.date_table (Scenarios.clock_from 0) 3 "host" Scenarios.mm_frag2 "/a/b/page"
    Scenarios.no_updates [] 0
  = ManifestGenerator.Ok
      (ManifestGenerator.mkManifest "3.0" 0
         [ManifestGenerator.mkEntry "/a/b/page.html" None None;
          ManifestGenerator.mkEntry "/a/frag.html" None None;
          ManifestGenerator.mkEntry "/a/frag.plain.html" None None]
         [("franklin", "/")] "franklin", 0%Z) 0 /\
  (0 <= 0)%Z /\ 0%Z = 0%Z /\
  exists l,
    Trace.builtEntries Scenarios.fetch_no_header Scenarios.never_dirty
      Scenarios.date_table (Scenarios.clock_from 0) 3 "host" Scenarios.mm_frag2 "/a/b/page"
      Scenarios.no_updates [] 0 = ManifestGenerator.Ok l 0 /\
    (Forall (fun e => ManifestGenerator.timestamp e = None) l -> 0%Z = 0%Z /\ 0%Z = 0%Z).
Proof.
  assert (H : ManifestGenerator.createManifest Scenarios.fetch_no_header Scenarios.never_dirty
    Scenarios.date_table (Scenarios.clock_from 0) 3 "host" Scenarios.mm_frag2 "/a/b/page"
    Scenarios.no_updates [] 0
  = ManifestGenerator.Ok
      (ManifestGenerator.mkManifest "3.0" 0
         [ManifestGenerator.mkEntry "/a/b/page.html" None None;
          ManifestGenerator.mkEntry "/a/frag.html" None None;
          ManifestGenerator.mkEntry "/a/frag.plain.html" None None]
         [("franklin", "/")] "franklin", 0%Z) 0)
    by (vm_compute; reflexivity).
  split; [exact H|].
  exact (createManifest_timestamp_zero _ _ _ _ _ _ _ _ _ _ _ _ _ _ H).
Defined.

(* ================================================================== *)
(** ** The merge map *)

Section MergeMap.
Import ManifestGenerator Trace.

Lemma map_set_keys (m : emap) (k x : string) (v : entry) :
  In x (map fst (map_set m k v)) -> x = k \/ In x (map fst m).
Proof.
  induction m as [|[k' v'] m IH]; simpl; [intuition|].
  destruct (String.eqb_spec k k') as [->|_]; simpl; [intuition|].
  intros [->|H]; [auto|]. destruct (IH H); auto.
Qed.

Lemma keyed_map_set (m : emap) (v : entry) :
  keyed m -> keyed (set_by_path m v).
Proof.
  unfold set_by_path, keyed. intros [Hf Hd].
  induction m as [|[k' v'] m IH]; simpl.
  - split; [constructor; [reflexivity|constructor]|constructor; [intuition|constructor]].
  - inversion Hf as [|? ? Hk Hf']; subst. inversion Hd as [|? ? Hn Hd']; subst.
    simpl in Hk, Hn.
    destruct (String.eqb_spec (path v) k') as [E|E]; simpl.
    + split; [constructor; auto|]. rewrite E. constructor; auto.
    + destruct (IH Hf' Hd') as [Hf2 Hd2]. split; [constructor; auto|].
      constructor; [|exact Hd2].
      intros Hin. destruct (map_set_keys _ _ _ _ Hin); [congruence|contradiction].
Qed.

Lemma find_path_set (m : emap) (v : entry) (q : string) :
  keyed m ->
  find_path q (map_values (set_by_path m v))
  = if String.eqb (path v) q then Some v else find_path q (map_values m).
Proof.
  unfold set_by_path, keyed, map_values, find_path. intros [Hf Hd].
  induction m as [|[k' v'] m IH]; simpl; [destruct (String.eqb (path v) q); reflexivity|].
  inversion Hf as [|? ? Hk Hf']; subst. inversion Hd as [|? ? Hn Hd']; subst.
  simpl in Hk, Hn. subst k'.
  destruct (String.eqb_spec (path v) (path v')) as [E|E]; simpl.
  - rewrite E. destruct (String.eqb (path v') q); reflexivity.
  - rewrite (IH Hf' Hd').
    destruct (String.eqb_spec (path v') q), (String.eqb_spec (path v) q);
      congruence.
Qed.

(** Folding [set] over a list: the map stays keyed, and the value found
    under [q] is the last entry of the list with path [q], if any. *)
Lemma fold_set_by_path (l : list entry) (q : string) :
  forall m, keyed m ->
  keyed (fold_left set_by_path l m) /\
  find_path q (map_values (fold_left set_by_path l m))
  = fold_left (fun acc e => if String.eqb (path e) q then Some e else acc) l
      (find_path q (map_values m)).
Proof.
  induction l as [|e l IH]; intros m Hm; simpl; [auto|].
  destruct (IH (set_by_path m e) (keyed_map_set m e Hm)) as [Hk Hf].
  split; [exact Hk|]. rewrite Hf, find_path_set by exact Hm. reflexivity.
Qed.

Lemma keyed_paths (m : emap) :
  keyed m -> map path (map_values m) = map fst m.
Proof.
  intros [Hf _]. unfold map_values. rewrite map_map.
  induction Hf as [|[k v] m Hk _ IH]; simpl; [reflexivity|]. simpl in Hk.
  rewrite IH, Hk. reflexivity.
Qed.

Lemma fold_merge_entry (p : string) (xs : list entry) (acc : emap) :
  fold_left (merge_entry p) xs acc = fold_left set_by_path (map (rebase p) xs) acc.
Proof. revert acc; induction xs; intros acc; simpl; auto. Qed.

Lemma mergeFragments_processed (cm : string -> list string -> M (manifest * Z))
    (p : string) :
  forall fl acc z n acc' flm n',
  mergeFragments cm p fl acc z n = Ok (acc', flm) n' ->
  exists l, processedFragments cm p fl n = Ok l n' /\
            acc' = fold_left set_by_path l acc.
Proof.
  induction fl as [|f fl IH]; intros acc z n acc' flm n' H.
  - simpl in H. injection H as <- _ <-. exists []. split; reflexivity.
  - simpl in H. unfold bind at 1 in H.
    destruct (cm f [f ++ ".plain.html"] n) as [[m t] k|] eqn:Ecm; [|discriminate].
    destruct (IH _ _ _ _ _ _ H) as [l2 [Hp Ha]].
    exists (map (rebase p) (entries m) ++ l2)%list. split.
    + simpl. unfold bind. rewrite Ecm, Hp. reflexivity.
    + rewrite Ha, fold_merge_entry, fold_left_app. reflexivity.
Qed.

End MergeMap.

(** C7. The entries of a manifest have pairwise distinct paths, and the
    entry kept for a path is the last one with that path in the processing
    order: page entry, resource entries, then the (rebased) entries of each
    fragment in fragment-list order. *)
Theorem createManifest_last_wins
    (fetchDataWithMethod : string -> string -> string -> option (option string))
    (isFileDirty : string -> bool) (dateGetTime : string -> ManifestGenerator.number) (clock : nat -> Z)
    (fuel : nat) (host : string) (mm : string -> option ManifestGenerator.metadata)
    (p : string) (flags : string -> bool) (add : list string) (n : nat)
    (m : ManifestGenerator.manifest) (ts : Z) (n' : nat) :
  ManifestGenerator.createManifest fetchDataWithMethod isFileDirty dateGetTime clock
    fuel host mm p flags add n = ManifestGenerator.Ok (m, ts) n' ->
  exists l,
    Trace.processed fetchDataWithMethod isFileDirty dateGetTime clock
      fuel host mm p flags add n = ManifestGenerator.Ok l n' /\
    NoDup (map ManifestGenerator.path (ManifestGenerator.entries m)) /\
    (forall q, Trace.find_path q (ManifestGenerator.entries m) = Trace.last_with_path q l).
Proof.
  intros H. destruct fuel as [|fuel]; [discriminate|].
  simpl in H |- *. destruct (mm p) as [data|]; [|discriminate].
  unfold ManifestGenerator.bind at 1 in H. unfold ManifestGenerator.bind at 1.
  unfold Trace.resourceSet.
  destruct (ManifestGenerator.createEntries _ _ _ _ _ _ _ _ n) as [[es lm] n1|] eqn:Ece;
    [|discriminate].
  unfold ManifestGenerator.bind at 1 in H.
  destruct (ManifestGenerator.mergeFragments _ _ _ _ _ n1) as [[acc' flm] n2|] eqn:Emf;
    [|discriminate].
  injection H as <- <- <-.
  destruct (mergeFragments_processed _ _ _ _ _ _ _ _ _ Emf) as [lf [Hp Ha]].
  exists (es ++ lf)%list. unfold ManifestGenerator.bind. rewrite Hp.
  split; [reflexivity|]. simpl ManifestGenerator.entries.
  assert (Hacc : acc' = fold_left Trace.set_by_path (es ++ lf) [])
    by (rewrite fold_left_app; exact Ha).
  assert (K0 : Trace.keyed []) by (split; constructor).
  split.
  - destruct (fold_set_by_path (es ++ lf) "" [] K0) as [Hk _].
    rewrite <- Hacc in Hk. rewrite (keyed_paths _ Hk). exact (proj2 Hk).
  - intros q. destruct (fold_set_by_path (es ++ lf) q [] K0) as [_ Hf].
    rewrite Hacc. exact Hf.
Qed.

Lemma createManifest_last_wins_witness :
  ManifestGenerator.createManifest Scenarios.fetch_by_path Scenarios.never_dirty
    Scenarios.date_table (Scenarios.clock_from 7) 3 "host" Scenarios.mm_dup "/a/b/page"
    Scenarios.frag_updated [] 0
  = ManifestGenerator.Ok
      (ManifestGenerator.mkManifest "3.0" 1704067200000
         [ManifestGenerator.mkEntry "/a/b/page.html" (Some (ManifestGenerator.Num (-1000)%Z)) None;
          ManifestGenerator.mkEntry "/x.js" None None;
          ManifestGenerator.mkEntry "/a/frag.html" (Some (ManifestGenerator.Num 7%Z)) None;
          ManifestGenerator.mkEntry "/a/frag.plain.html" None None]
         [("franklin", "/")] "franklin", 1704067200000%Z) 1 /\
  Trace.processed Scenarios.fetch_by_path Scenarios.never_dirty
      Scenarios.date_table (Scenarios.clock_from 7) 3 "host" Scenarios.mm_dup "/a/b/page"
      Scenarios.frag_updated [] 0
  = ManifestGenerator.Ok
      [ManifestGenerator.mkEntry "/a/b/page.html" (Some (ManifestGenerator.Num (-1000)%Z)) None;
       ManifestGenerator.mkEntry "/x.js" None None;
       ManifestGenerator.mkEntry "/a/frag.html" (Some (ManifestGenerator.Num 1704067200000%Z)) None;
       ManifestGenerator.mkEntry "/a/frag.html" (Some (ManifestGenerator.Num 7%Z)) None;
       ManifestGenerator.mkEntry "/x.js" None None;
       ManifestGenerator.mkEntry "/a/frag.plain.html" None None] 1 /\
  ~ NoDup ["/a/b/page.html"; "/x.js"; "/a/frag.html"; "/a/frag.html"; "/x.js";
           "/a/frag.plain.html"] /\
  exists l,
    Trace.processed Scenarios.fetch_by_path Scenarios.never_dirty
      Scenarios.date_table (Scenarios.clock_from 7) 3 "host" Scenarios.mm_dup "/a/b/page"
      Scenarios.frag_updated [] 0 = ManifestGenerator.Ok l 1 /\
    NoDup ["/a/b/page.html"; "/x.js"; "/a/frag.html"; "/a/frag.plain.html"] /\
    (forall q, Trace.find_path q
         [ManifestGenerator.mkEntry "/a/b/page.html" (Some (ManifestGenerator.Num (-1000)%Z)) None;
          ManifestGenerator.mkEntry "/x.js" None None;
          ManifestGenerator.mkEntry "/a/frag.html" (Some (ManifestGenerator.Num 7%Z)) None;
          ManifestGenerator.mkEntry "/a/frag.plain.html" None None]
               = Trace.last_with_path q l).
Proof.
  assert (H : ManifestGenerator.createManifest Scenarios.fetch_by_path Scenarios.never_dirty
    Scenarios.date_table (Scenarios.clock_from 7) 3 "host" Scenarios.mm_dup "/a/b/page"
    Scenarios.frag_updated [] 0
  = ManifestGenerator.Ok
      (ManifestGenerator.mkManifest "3.0" 1704067200000
         [ManifestGenerator.mkEntry "/a/b/page.html" (Some (ManifestGenerator.Num (-1000)%Z)) None;
          ManifestGenerator.mkEntry "/x.js" None None;
          ManifestGenerator.mkEntry "/a/frag.html" (Some (ManifestGenerator.Num 7%Z)) None;
          ManifestGenerator.mkEntry "/a/frag.plain.html" None None]
         [("franklin", "/")] "franklin", 1704067200000%Z) 1)
    by (vm_compute; reflexivity).
  split; [exact H|]. split; [vm_compute; reflexivity|].
  split.
  - intros Hd. inversion Hd as [|? ? _ Hd1]. inversion Hd1 as [|? ? _ Hd2].
    inversion Hd2 as [|? ? Hn _]. apply Hn. simpl. auto.
  - exact (createManifest_last_wins _ _ _ _ _ _ _ _ _ _ _ _ _ _ H).
Defined.

(* ================================================================== *)
(** ** Hash and timestamp of an entry *)

Section Exclusive.
Import ManifestGenerator Trace.

Variable fetchDataWithMethod : string -> string -> string -> option (option string).
Variable isFileDirty : string -> bool.
Variable dateGetTime : string -> ManifestGenerator.number.
Variable clock : nat -> Z.

Let excl (e : entry) : Prop := hash e = None \/ timestamp e = None.

Lemma getPageJsonEntry_shape (host p : string) (upd : bool) (k : nat) (e : entry) (k' : nat) :
  getPageJsonEntry fetchDataWithMethod dateGetTime clock host p upd k = Ok e k' ->
  hash e = None /\ path e = (p ++ ".html")%string.
Proof.
  unfold getPageJsonEntry, fetchHead, bind, ret, throw, now.
  destruct (fetchDataWithMethod host (p ++ ".html") "HEAD") as [d|]; [|discriminate].
  destruct upd.
  - intros H; injection H as <- _; auto.
  - destruct d as [d|]; [destruct (JS.truthy_str d)|];
      intros H; injection H as <- _; auto.
Qed.

Lemma resourceEntry_shape (parentPath r : string) (d : option string) (lm : Z) :
  let e := fst (resourceEntry dateGetTime parentPath r d lm) in
  (isMedia (JS.trim r) = true ->
     hash e = Some (getHashFromMedia (JS.trim r)) /\ timestamp e = None) /\
  (isMedia (JS.trim r) = false -> hash e = None).
Proof.
  unfold resourceEntry. destruct (isMedia (JS.trim r)); simpl.
  - split; [auto|discriminate].
  - split; [discriminate|]. intros _.
    destruct d as [d|]; [destruct (JS.truthy_str d)|]; reflexivity.
Qed.

Lemma resourceEntry_excl (parentPath r : string) (d : option string) (lm : Z) :
  excl (fst (resourceEntry dateGetTime parentPath r d lm)).
Proof.
  destruct (resourceEntry_shape parentPath r d lm) as [Hm Hn]. unfold excl.
  destruct (isMedia (JS.trim r)); [right; apply Hm|left; apply Hn]; reflexivity.
Qed.

Lemma resourcesLoop_excl (host parentPath : string) (rs : list string) :
  forall acc lm, Forall excl acc ->
  Forall excl (fst (resourcesLoop fetchDataWithMethod isFileDirty dateGetTime
                      host parentPath rs acc lm)).
Proof.
  induction rs as [|r rs IH]; intros acc lm Hacc; simpl; [exact Hacc|].
  assert (Hpush : forall d,
    Forall excl (acc ++ [fst (resourceEntry dateGetTime parentPath r d lm)])%list).
  { intros d. apply Forall_app. split; [exact Hacc|]. constructor; [|constructor].
    apply resourceEntry_excl. }
  destruct (fetchDataWithMethod host (JS.trim r) "HEAD") as [d|].
  - specialize (Hpush d). destruct (resourceEntry dateGetTime parentPath r d lm).
    apply IH, Hpush.
  - destruct (negb (isFileDirty (JS.slice1 (JS.trim r)))); [apply IH, Hacc|].
    specialize (Hpush None). destruct (resourceEntry dateGetTime parentPath r None lm).
    apply IH, Hpush.
Qed.

Lemma createEntries_excl (host p : string) (rs : list string) (upd : bool)
    (n : nat) (es : list entry) (lm : Z) (n' : nat) :
  createEntries fetchDataWithMethod isFileDirty dateGetTime clock host p rs upd n
  = Ok (es, lm) n' ->
  Forall excl es.
Proof.
  unfold createEntries. unfold bind at 1, ret.
  destruct (getPageJsonEntry fetchDataWithMethod dateGetTime clock host p upd n)
    as [pe n1|] eqn:Epe; [|discriminate].
  intros H; injection H as Hr _.
  destruct (getPageJsonEntry_shape _ _ _ _ _ _ Epe) as [Hh _].
  apply (f_equal fst) in Hr. simpl in Hr. rewrite <- Hr. apply resourcesLoop_excl. constructor; [left; exact Hh|constructor].
Qed.

Lemma map_set_excl (m : emap) (k : string) (v : entry) :
  Forall excl (map_values m) -> excl v -> Forall excl (map_values (map_set m k v)).
Proof.
  unfold map_values. induction m as [|[k' v'] m IH]; simpl; intros Hm Hv.
  - constructor; auto.
  - inversion Hm; subst. destruct (String.eqb k k'); simpl; constructor; auto.
Qed.

Lemma fold_set_excl (l : list entry) :
  forall m, Forall excl (map_values m) -> Forall excl l ->
  Forall excl (map_values (fold_left set_by_path l m)).
Proof.
  induction l as [|e l IH]; intros m Hm Hl; simpl; [exact Hm|].
  inversion Hl; subst. apply IH; [|assumption].
  apply map_set_excl; assumption.
Qed.

Lemma mergeFragments_excl (cm : string -> list string -> M (manifest * Z)) (p : string) :
  (forall f a k m t k', cm f a k = Ok (m, t) k' -> Forall excl (entries m)) ->
  forall fl acc z n acc' flm n', Forall excl (map_values acc) ->
  mergeFragments cm p fl acc z n = Ok (acc', flm) n' ->
  Forall excl (map_values acc').
Proof.
  intros Hcm fl; induction fl as [|f fl IH]; intros acc z n acc' flm n' Hacc H.
  - simpl in H. injection H as <- _ _. exact Hacc.
  - simpl in H. unfold bind at 1 in H.
    destruct (cm f [f ++ ".plain.html"] n) as [[m t] k|] eqn:Ecm; [|discriminate].
    refine (IH _ _ _ _ _ _ _ H).
    rewrite fold_merge_entry. apply fold_set_excl; [exact Hacc|].
    apply Forall_map. refine (Forall_impl _ _ (Hcm _ _ _ _ _ _ Ecm)).
    intros e He. unfold rebase. destruct (isMedia (path e)); exact He.
Qed.

Lemma createManifest_excl (fuel : nat) :
  forall host mm p flags add n m ts n',
  createManifest fetchDataWithMethod isFileDirty dateGetTime clock fuel host mm p flags add n
  = Ok (m, ts) n' ->
  Forall (fun e => hash e = None \/ timestamp e = None) (entries m).
Proof.
  induction fuel as [|fuel IH]; intros host mm p flags add n m ts n' H; [discriminate|].
  simpl in H. destruct (mm p) as [data|]; [|discriminate].
  unfold bind at 1 in H.
  destruct (createEntries _ _ _ _ _ _ _ _ n) as [[es lm] n1|] eqn:Ece; [|discriminate].
  unfold bind at 1 in H.
  destruct (mergeFragments _ _ _ _ _ n1) as [[acc' flm] n2|] eqn:Emf; [|discriminate].
  injection H as <- _ _. simpl.
  refine (mergeFragments_excl _ p (fun f a k m0 t k' Hc => IH _ _ _ _ _ _ _ _ _ Hc)
            _ _ _ _ _ _ _ _ Emf).
  change (Forall excl (map_values (fold_left set_by_path es []))).
  apply fold_set_excl; [constructor|].
  exact (createEntries_excl _ _ _ _ _ _ _ _ Ece).
Qed.

End Exclusive.

(** C6 (amended). No entry of a produced manifest carries both a hash and a
    timestamp. The entry built for a resource whose trimmed path is a media
    path carries its hash and no timestamp; the entry built for a non-media
    resource carries no hash. The page entry ([pagePath ++ ".html"]) carries
    no hash; its timestamp is set without any media test. *)
Theorem manifest_entries_exclusive
    (fetchDataWithMethod : string -> string -> string -> option (option string))
    (isFileDirty : string -> bool) (dateGetTime : string -> ManifestGenerator.number) (clock : nat -> Z)
    (fuel : nat) (host : string) (mm : string -> option ManifestGenerator.metadata)
    (p : string) (flags : string -> bool) (add : list string) (n : nat)
    (m : ManifestGenerator.manifest) (ts : Z) (n' : nat) :
  ManifestGenerator.createManifest fetchDataWithMethod isFileDirty dateGetTime clock
    fuel host mm p flags add n = ManifestGenerator.Ok (m, ts) n' ->
  Forall (fun e => ManifestGenerator.hash e = None \/ ManifestGenerator.timestamp e = None)
    (ManifestGenerator.entries m) /\
  (forall parentPath r d lm,
     let e := fst (ManifestGenerator.resourceEntry dateGetTime parentPath r d lm) in
     (ManifestGenerator.isMedia (JS.trim r) = true ->
        ManifestGenerator.hash e = Some (ManifestGenerator.getHashFromMedia (JS.trim r)) /\
        ManifestGenerator.timestamp e = None) /\
     (ManifestGenerator.isMedia (JS.trim r) = false -> ManifestGenerator.hash e = None)) /\
  (forall host' q upd k e k',
     ManifestGenerator.getPageJsonEntry fetchDataWithMethod dateGetTime clock host' q upd k
     = ManifestGenerator.Ok e k' ->
     ManifestGenerator.hash e = None /\ ManifestGenerator.path e = (q ++ ".html")%string).
Proof.
  intros H. split; [exact (createManifest_excl _ _ _ _ _ _ _ _ _ _ _ _ _ _ H)|].
  split; [apply resourceEntry_shape|]. apply getPageJsonEntry_shape.
Qed.

Lemma manifest_entries_exclusive_witness :
  ManifestGenerator.createManifest (Scenarios.fetch_header "Mon, 01 Jan 2024 00:00:00 GMT")
    Scenarios.never_dirty Scenarios.date_table (Scenarios.clock_from 0) 3 "host"
    Scenarios.mm_mixed "/a/b/page" Scenarios.no_updates [] 0
  = ManifestGenerator.Ok
      (ManifestGenerator.mkManifest "3.0" 1704067200000
         [ManifestGenerator.mkEntry "/a/b/page.html" (Some (ManifestGenerator.Num 1704067200000%Z)) None;
          ManifestGenerator.mkEntry "/x.js" (Some (ManifestGenerator.Num 1704067200000%Z)) None;
          ManifestGenerator.mkEntry "/a/b/media_3.png" None (Some "3");
          ManifestGenerator.mkEntry "/frag.html" (Some (ManifestGenerator.Num 1704067200000%Z)) None;
          ManifestGenerator.mkEntry "/a/bmedia_12.png" None (Some "12");
          ManifestGenerator.mkEntry "/frag.plain.html" (Some (ManifestGenerator.Num 1704067200000%Z)) None]
         [("franklin", "/")] "franklin", 1704067200000%Z) 0 /\
  Scenarios.fetch_header "Mon, 01 Jan 2024 00:00:00 GMT" "host" (JS.trim "/media_3.png") "HEAD" = Some (Some "Mon, 01 Jan 2024 00:00:00 GMT") /\
  Forall (fun e => ManifestGenerator.hash e = None \/ ManifestGenerator.timestamp e = None)
         [ManifestGenerator.mkEntry "/a/b/page.html" (Some (ManifestGenerator.Num 1704067200000%Z)) None;
          ManifestGenerator.mkEntry "/x.js" (Some (ManifestGenerator.Num 1704067200000%Z)) None;
          ManifestGenerator.mkEntry "/a/b/media_3.png" None (Some "3");
          ManifestGenerator.mkEntry "/frag.html" (Some (ManifestGenerator.Num 1704067200000%Z)) None;
          ManifestGenerator.mkEntry "/a/bmedia_12.png" None (Some "12");
          ManifestGenerator.mkEntry "/frag.plain.html" (Some (ManifestGenerator.Num 1704067200000%Z)) None] /\
  (let e := fst (ManifestGenerator.resourceEntry Scenarios.date_table "/a/b" "/media_3.png"
                   (Some "Mon, 01 Jan 2024 00:00:00 GMT") 0) in
   ManifestGenerator.hash e = Some (ManifestGenerator.getHashFromMedia (JS.trim "/media_3.png")) /\
   ManifestGenerator.timestamp e = None).
Proof.
  assert (H : ManifestGenerator.createManifest (Scenarios.fetch_header "Mon, 01 Jan 2024 00:00:00 GMT")
    Scenarios.never_dirty Scenarios.date_table (Scenarios.clock_from 0) 3 "host"
    Scenarios.mm_mixed "/a/b/page" Scenarios.no_updates [] 0
  = ManifestGenerator.Ok
      (ManifestGenerator.mkManifest "3.0" 1704067200000
         [ManifestGenerator.mkEntry "/a/b/page.html" (Some (ManifestGenerator.Num 1704067200000%Z)) None;
          ManifestGenerator.mkEntry "/x.js" (Some (ManifestGenerator.Num 1704067200000%Z)) None;
          ManifestGenerator.mkEntry "/a/b/media_3.png" None (Some "3");
          ManifestGenerator.mkEntry "/frag.html" (Some (ManifestGenerator.Num 1704067200000%Z)) None;
          ManifestGenerator.mkEntry "/a/bmedia_12.png" None (Some "12");
          ManifestGenerator.mkEntry "/frag.plain.html" (Some (ManifestGenerator.Num 1704067200000%Z)) None]
         [("franklin", "/")] "franklin", 1704067200000%Z) 0)
    by (vm_compute; reflexivity).
  pose proof (manifest_entries_exclusive _ _ _ _ _ _ _ _ _ _ _ _ _ _ H) as [Hf [Hr _]].
  split; [exact H|]. split; [reflexivity|]. split; [exact Hf|].
  exact (proj1 (Hr "/a/b" "/media_3.png" (Some "Mon, 01 Jan 2024 00:00:00 GMT") 0%Z) eq_refl).
Defined.

(* ================================================================== *)
(** ** Runs that differ only in the wall clock *)

Section Clocks.
Import ManifestGenerator Trace.

Variable fetchDataWithMethod : string -> string -> string -> option (option string).
Variable isFileDirty : string -> bool.
Variable dateGetTime : string -> ManifestGenerator.number.
Variables clock1 clock2 : nat -> Z.
Variable flags : string -> bool.

(** How the entries of the two runs may differ. *)
Variable R : entry -> entry -> Prop.
Hypothesis R_path : forall a b, R a b -> path a = path b.
Hypothesis R_refl : forall e, R e e.
Hypothesis R_rebase : forall p a b, R a b -> R (rebase p a) (rebase p b).
Hypothesis R_page : forall host q k,
  res_rel R (getPageJsonEntry fetchDataWithMethod dateGetTime clock1 host q (flags q) k)
            (getPageJsonEntry fetchDataWithMethod dateGetTime clock2 host q (flags q) k).

Let mrel (m1 m2 : emap) : Prop :=
  Forall2 (fun kv1 kv2 => fst kv1 = fst kv2 /\ R (snd kv1) (snd kv2)) m1 m2.

Lemma bind_rel {A B C D} (RA : A -> B -> Prop) (RC : C -> D -> Prop)
    (m1 : M A) (m2 : M B) (k1 : A -> M C) (k2 : B -> M D) (k : nat) :
  res_rel RA (m1 k) (m2 k) ->
  (forall a b k', RA a b -> res_rel RC (k1 a k') (k2 b k')) ->
  res_rel RC (bind m1 k1 k) (bind m2 k2 k).
Proof.
  unfold bind. destruct (m1 k) as [a n1|e1], (m2 k) as [b n2|e2]; simpl; try tauto.
  intros [-> Hab] Hk. apply Hk, Hab.
Qed.

Lemma Forall2_R_refl (l : list entry) : Forall2 R l l.
Proof. induction l; constructor; auto. Qed.

Lemma resourceEntry_fst (parentPath r : string) (d : option string) (lm lm' : Z) :
  fst (resourceEntry dateGetTime parentPath r d lm)
  = fst (resourceEntry dateGetTime parentPath r d lm').
Proof.
  unfold resourceEntry. destruct (isMedia (JS.trim r)); [reflexivity|].
  destruct d as [d|]; [destruct (JS.truthy_str d)|]; reflexivity.
Qed.

Lemma resourcesLoop_entries (host parentPath : string) (rs : list string) :
  forall acc lm lm',
  fst (resourcesLoop fetchDataWithMethod isFileDirty dateGetTime host parentPath rs acc lm)
  = (acc ++ fst (resourcesLoop fetchDataWithMethod isFileDirty dateGetTime
                   host parentPath rs [] lm'))%list.
Proof.
  induction rs as [|r rs IH]; intros acc lm lm'; simpl; [symmetry; apply app_nil_r|].
  assert (Hpush : forall d,
    fst (let '(e, lm2) := resourceEntry dateGetTime parentPath r d lm in
         resourcesLoop fetchDataWithMethod isFileDirty dateGetTime host parentPath rs
           (acc ++ [e]) lm2)
    = (acc ++ fst (let '(e, lm2) := resourceEntry dateGetTime parentPath r d lm' in
         resourcesLoop fetchDataWithMethod isFileDirty dateGetTime host parentPath rs
           ([] ++ [e]) lm2))%list).
  { intros d. pose proof (resourceEntry_fst parentPath r d lm lm') as E.
    destruct (resourceEntry dateGetTime parentPath r d lm) as [e1 l1].
    destruct (resourceEntry dateGetTime parentPath r d lm') as [e2 l2].
    simpl in E; subst e2. rewrite (IH _ l1 0%Z), (IH ([] ++ [e1])%list l2 0%Z).
    rewrite app_assoc. reflexivity. }
  destruct (fetchDataWithMethod host (JS.trim r) "HEAD") as [d|]; [apply Hpush|].
  destruct (negb (isFileDirty (JS.slice1 (JS.trim r)))); [|apply Hpush].
  rewrite (IH acc lm lm'), (IH [] lm' lm'). reflexivity.
Qed.

Lemma createEntries_rel (host q : string) (rs : list string) (k : nat) :
  res_rel (fun x y => Forall2 R (fst x) (fst y))
    (createEntries fetchDataWithMethod isFileDirty dateGetTime clock1 host q rs (flags q) k)
    (createEntries fetchDataWithMethod isFileDirty dateGetTime clock2 host q rs (flags q) k).
Proof.
  unfold createEntries. eapply bind_rel; [apply R_page|].
  intros pe1 pe2 k' Hpe. simpl. split; [reflexivity|].
  rewrite (resourcesLoop_entries _ _ _ [pe1] _ 0%Z),
          (resourcesLoop_entries _ _ _ [pe2] _ 0%Z).
  constructor; [exact Hpe|apply Forall2_R_refl].
Qed.

Lemma map_set_rel (m1 m2 : emap) (k : string) (v1 v2 : entry) :
  mrel m1 m2 -> R v1 v2 -> mrel (map_set m1 k v1) (map_set m2 k v2).
Proof.
  intros Hm Hv. induction Hm as [|[k1 w1] [k2 w2] m1 m2 [Hk Hw] Hm IH]; simpl.
  - constructor; [split; auto|constructor].
  - simpl in Hk; subst k2.
    destruct (String.eqb k k1); constructor; try split; auto.
Qed.

Lemma fold_set_rel (l1 l2 : list entry) :
  Forall2 R l1 l2 -> forall m1 m2, mrel m1 m2 ->
  mrel (fold_left set_by_path l1 m1) (fold_left set_by_path l2 m2).
Proof.
  induction 1 as [|e1 e2 l1 l2 He _ IH]; intros m1 m2 Hm; simpl; [exact Hm|].
  apply IH. unfold set_by_path. rewrite (R_path _ _ He). apply map_set_rel; assumption.
Qed.

Lemma mergeFragments_rel (cm1 cm2 : string -> list string -> M (manifest * Z)) (p : string) :
  (forall f a k, res_rel (fun x y => Forall2 R (entries (fst x)) (entries (fst y)))
                   (cm1 f a k) (cm2 f a k)) ->
  forall fl acc1 acc2 z1 z2 k, mrel acc1 acc2 ->
  res_rel (fun x y => mrel (fst x) (fst y))
    (mergeFragments cm1 p fl acc1 z1 k) (mergeFragments cm2 p fl acc2 z2 k).
Proof.
  intros Hcm fl; induction fl as [|f fl IH]; intros acc1 acc2 z1 z2 k Hacc; simpl.
  - split; [reflexivity|exact Hacc].
  - eapply bind_rel; [apply Hcm|].
    intros [m1 t1] [m2 t2] k' He; simpl in He. apply IH.
    rewrite !fold_merge_entry. apply fold_set_rel; [|exact Hacc].
    induction He; simpl; constructor; auto.
Qed.

Lemma createManifest_rel (fuel : nat) :
  forall host mm p add k,
  res_rel (fun x y => Forall2 R (entries (fst x)) (entries (fst y)))
    (createManifest fetchDataWithMethod isFileDirty dateGetTime clock1 fuel host mm p flags add k)
    (createManifest fetchDataWithMethod isFileDirty dateGetTime clock2 fuel host mm p flags add k).
Proof.
  induction fuel as [|fuel IH]; intros host mm p add k; simpl; [reflexivity|].
  destruct (mm p) as [data|]; [|reflexivity].
  eapply bind_rel; [apply createEntries_rel|].
  intros [es1 lm1] [es2 lm2] k' Hes; simpl in Hes.
  eapply bind_rel.
  - apply mergeFragments_rel; [intros f a k0; apply IH|].
    change (mrel (fold_left set_by_path es1 []) (fold_left set_by_path es2 [])).
    apply fold_set_rel; [exact Hes|constructor].
  - intros [acc1 flm1] [acc2 flm2] k'' Hm; simpl in Hm. simpl.
    split; [reflexivity|]. unfold map_values.
    induction Hm as [|kv1 kv2 m1 m2 [_ Hv] _ IHm]; simpl; constructor; auto.
Qed.

End Clocks.

Lemma Forall2_eq_list {A} (l1 l2 : list A) : Forall2 eq l1 l2 -> l1 = l2.
Proof. induction 1; congruence. Qed.

(** C8 (amended). Two runs of [createManifest] on the same inputs, with the
    same probe, dirty-check and date-parsing results, that differ only in
    the wall clock, both completing: they end in the same clock state, and
    their entries lists have the same length, the same path and hash at
    every position, and the same timestamp except where both timestamps are
    clock readings (taken for the page entry of the top page or of any
    fragment whose updated flag is set); with no updated flag set, the two
    entries lists are identical. *)
Theorem createManifest_clock_independent
    (fetchDataWithMethod : string -> string -> string -> option (option string))
    (isFileDirty : string -> bool) (dateGetTime : string -> ManifestGenerator.number) (clock1 clock2 : nat -> Z)
    (fuel : nat) (host : string) (mm : string -> option ManifestGenerator.metadata)
    (p : string) (flags : string -> bool) (add : list string) (n : nat)
    (m1 : ManifestGenerator.manifest) (t1 : Z) (n1 : nat)
    (m2 : ManifestGenerator.manifest) (t2 : Z) (n2 : nat) :
  ManifestGenerator.createManifest fetchDataWithMethod isFileDirty dateGetTime clock1
    fuel host mm p flags add n = ManifestGenerator.Ok (m1, t1) n1 ->
  ManifestGenerator.createManifest fetchDataWithMethod isFileDirty dateGetTime clock2
    fuel host mm p flags add n = ManifestGenerator.Ok (m2, t2) n2 ->
  n1 = n2 /\
  Forall2 (Trace.clock_rel clock1 clock2)
    (ManifestGenerator.entries m1) (ManifestGenerator.entries m2) /\
  ((forall q, flags q = false) ->
   ManifestGenerator.entries m1 = ManifestGenerator.entries m2).
Proof.
  intros H1 H2.
  pose proof (createManifest_rel fetchDataWithMethod isFileDirty dateGetTime clock1 clock2
    flags (Trace.clock_rel clock1 clock2)
    (fun a b Hab => proj1 Hab)
    (fun e => conj eq_refl (conj eq_refl (or_introl eq_refl)))
    (fun q a b '(conj Hp (conj Hh Ht)) =>
       ltac:(unfold ManifestGenerator.rebase; rewrite Hp;
             destruct (ManifestGenerator.isMedia (ManifestGenerator.path b));
             [repeat split; simpl; auto | exact (conj Hp (conj Hh Ht))]))
    (fun host' q k =>
       ltac:(unfold ManifestGenerator.getPageJsonEntry, ManifestGenerator.fetchHead,
               ManifestGenerator.bind, ManifestGenerator.ret, ManifestGenerator.now,
               ManifestGenerator.throw;
             destruct (fetchDataWithMethod host' (q ++ ".html") "HEAD") as [d|];
             [|reflexivity];
             destruct (flags q);
             [split; [reflexivity|]; repeat split; right; exists k; auto
             |destruct d as [d|]; [destruct (JS.truthy_str d)|];
              (split; [reflexivity|]; repeat split; left; reflexivity)]))
    fuel host mm p add n) as Hrel.
  rewrite H1, H2 in Hrel. destruct Hrel as [Hn Hents].
  split; [exact Hn|]. split; [exact Hents|].
  intros Hf.
  pose proof (createManifest_rel fetchDataWithMethod isFileDirty dateGetTime clock1 clock2
    flags eq (fun a b Hab => f_equal ManifestGenerator.path Hab) (fun e => eq_refl)
    (fun q a b Hab => f_equal (ManifestGenerator.rebase q) Hab)
    (fun host' q k =>
       ltac:(rewrite Hf;
             unfold ManifestGenerator.getPageJsonEntry, ManifestGenerator.fetchHead,
               ManifestGenerator.bind, ManifestGenerator.ret, ManifestGenerator.throw;
             destruct (fetchDataWithMethod host' (q ++ ".html") "HEAD") as [d|];
             [|reflexivity];
             destruct d as [d|]; [destruct (JS.truthy_str d)|]; split; reflexivity))
    fuel host mm p add n) as Heq.
  rewrite H1, H2 in Heq. destruct Heq as [_ He]. apply Forall2_eq_list, He.
Qed.

Lemma createManifest_clock_independent_witness :
  ManifestGenerator.createManifest
    Scenarios.fetch_no_header Scenarios.never_dirty Scenarios.date_table
    (Scenarios.clock_from 100) 3 "host" Scenarios.mm_frag2 "/a/b/page"
    Scenarios.frag_updated [] 0
  = ManifestGenerator.Ok
      (ManifestGenerator.mkManifest "3.0" 100
         [ManifestGenerator.mkEntry "/a/b/page.html" None None;
          ManifestGenerator.mkEntry "/a/frag.html" (Some (ManifestGenerator.Num 100%Z)) None;
          ManifestGenerator.mkEntry "/a/frag.plain.html" None None]
         [("franklin", "/")] "franklin", 100%Z) 1 /\
  ManifestGenerator.createManifest
    Scenarios.fetch_no_header Scenarios.never_dirty Scenarios.date_table
    (Scenarios.clock_from 200) 3 "host" Scenarios.mm_frag2 "/a/b/page"
    Scenarios.frag_updated [] 0
  = ManifestGenerator.Ok
      (ManifestGenerator.mkManifest "3.0" 200
         [ManifestGenerator.mkEntry "/a/b/page.html" None None;
          ManifestGenerator.mkEntry "/a/frag.html" (Some (ManifestGenerator.Num 200%Z)) None;
          ManifestGenerator.mkEntry "/a/frag.plain.html" None None]
         [("franklin", "/")] "franklin", 200%Z) 1 /\
  Forall2 (Trace.clock_rel (Scenarios.clock_from 100) (Scenarios.clock_from 200))
    [ManifestGenerator.mkEntry "/a/b/page.html" None None;
     ManifestGenerator.mkEntry "/a/frag.html" (Some (ManifestGenerator.Num 100%Z)) None;
     ManifestGenerator.mkEntry "/a/frag.plain.html" None None]
    [ManifestGenerator.mkEntry "/a/b/page.html" None None;
     ManifestGenerator.mkEntry "/a/frag.html" (Some (ManifestGenerator.Num 200%Z)) None;
     ManifestGenerator.mkEntry "/a/frag.plain.html" None None].
Proof.
  assert (H1 : ManifestGenerator.createManifest
    Scenarios.fetch_no_header Scenarios.never_dirty Scenarios.date_table
    (Scenarios.clock_from 100) 3 "host" Scenarios.mm_frag2 "/a/b/page"
    Scenarios.frag_updated [] 0
  = ManifestGenerator.Ok
      (ManifestGenerator.mkManifest "3.0" 100
         [ManifestGenerator.mkEntry "/a/b/page.html" None None;
          ManifestGenerator.mkEntry "/a/frag.html" (Some (ManifestGenerator.Num 100%Z)) None;
          ManifestGenerator.mkEntry "/a/frag.plain.html" None None]
         [("franklin", "/")] "franklin", 100%Z) 1) by (vm_compute; reflexivity).
  assert (H2 : ManifestGenerator.createManifest
    Scenarios.fetch_no_header Scenarios.never_dirty Scenarios.date_table
    (Scenarios.clock_from 200) 3 "host" Scenarios.mm_frag2 "/a/b/page"
    Scenarios.frag_updated [] 0
  = ManifestGenerator.Ok
      (ManifestGenerator.mkManifest "3.0" 200
         [ManifestGenerator.mkEntry "/a/b/page.html" None None;
          ManifestGenerator.mkEntry "/a/frag.html" (Some (ManifestGenerator.Num 200%Z)) None;
          ManifestGenerator.mkEntry "/a/frag.plain.html" None None]
         [("franklin", "/")] "franklin", 200%Z) 1) by (vm_compute; reflexivity).
  split; [exact H1|]. split; [exact H2|].
  exact (proj1 (proj2 (createManifest_clock_independent _ _ _ _ _ _ _ _ _ _ _ _ _ _ _ _ _ _
                         H1 H2))).
Defined.

(* ================================================================== *)
(** ** Further properties of the string primitives *)

Module StrFacts.
Import JS JSFacts.

Lemma append_assoc (a b c : string) : (a ++ b) ++ c = a ++ (b ++ c).
Proof. induction a; simpl; congruence. Qed.

Lemma append_nil_r (a : string) : a ++ "" = a.
Proof. induction a; simpl; congruence. Qed.

Lemma append_cancel_l (a b c : string) : a ++ b = a ++ c -> b = c.
Proof. induction a; simpl; [auto|intros H; injection H; auto]. Qed.

Lemma index_of_eq (s sub : string) :
  index_of s sub =
  if starts_with sub s then Some 0
  else match s with EmptyString => None | String _ s' => option_map S (index_of s' sub) end.
Proof. destruct s; reflexivity. Qed.

Lemma starts_with_app (sub y : string) : starts_with sub (sub ++ y) = true.
Proof. induction sub; simpl; [reflexivity|]. rewrite Ascii.eqb_refl. exact IHsub. Qed.

Lemma starts_with_spec (sub t : string) : starts_with sub t = true -> exists y, t = sub ++ y.
Proof.
  revert t; induction sub as [|a sub IH]; intros t H; [exists t; reflexivity|].
  destruct t as [|b t]; [discriminate|]. simpl in H. apply andb_prop in H as [Hab H].
  apply Ascii.eqb_eq in Hab; subst b. destruct (IH t H) as [y ->]. exists y; reflexivity.
Qed.

(** A position found by [index_of] is an occurrence. *)
Lemma index_of_some (s sub : string) (n : nat) :
  index_of s sub = Some n -> exists x y, s = x ++ sub ++ y /\ String.length x = n.
Proof.
  revert n; induction s as [|c s IH]; intros n H; rewrite index_of_eq in H.
  - destruct (starts_with sub "") eqn:E; [|discriminate]. injection H as <-.
    destruct (starts_with_spec _ _ E) as [y Hy]. exists "", y. split; [exact Hy|reflexivity].
  - destruct (starts_with sub (String c s)) eqn:E.
    + injection H as <-. destruct (starts_with_spec _ _ E) as [y Hy].
      exists "", y. split; [exact Hy|reflexivity].
    + destruct (index_of s sub) as [m|] eqn:Em; [|discriminate]. injection H as <-.
      destruct (IH m eq_refl) as [x [y [-> Hx]]].
      exists (String c x), y. split; [reflexivity|simpl; congruence].
Qed.

(** ... and it is the first one. *)
Lemma index_of_first (s sub x y : string) (n : nat) :
  index_of s sub = Some n -> s = x ++ sub ++ y -> n <= String.length x.
Proof.
  revert n x; induction s as [|c s IH]; intros n x H Hs; rewrite index_of_eq in H.
  - destruct (starts_with sub ""); [injection H as <-; lia|discriminate].
  - destruct (starts_with sub (String c s)) eqn:E; [injection H as <-; lia|].
    destruct x as [|d x].
    + simpl in Hs. rewrite Hs, starts_with_app in E. discriminate.
    + simpl in Hs. injection Hs as <- Hs.
      destruct (index_of s sub) as [m|] eqn:Em; [|discriminate]. injection H as <-.
      simpl. specialize (IH m x eq_refl Hs). lia.
Qed.

Lemma index_of_app (x sub y : string) : exists n, index_of (x ++ sub ++ y) sub = Some n.
Proof.
  induction x as [|c x IH]; rewrite index_of_eq.
  - simpl. rewrite starts_with_app. exists 0; reflexivity.
  - destruct (starts_with sub (String c x ++ sub ++ y)); [exists 0; reflexivity|].
    simpl. destruct IH as [n ->]. exists (S n); reflexivity.
Qed.

Lemma includes_spec (s sub : string) :
  includes s sub = true <-> exists x y, s = x ++ sub ++ y.
Proof.
  unfold includes. split.
  - destruct (index_of s sub) as [n|] eqn:E; [|discriminate]. intros _.
    destruct (index_of_some _ _ _ E) as [x [y [Hs _]]]. eauto.
  - intros [x [y ->]]. destruct (index_of_app x sub y) as [n ->]. reflexivity.
Qed.

Lemma ltrim_decomp (s : string) : exists a, s = a ++ ltrim s.
Proof.
  induction s as [|c s [a Ha]]; [exists ""; reflexivity|]. simpl.
  destruct (is_ws c); [exists (String c a); simpl; congruence|exists ""; reflexivity].
Qed.

Lemma rtrim_decomp (s : string) : exists b, s = rtrim s ++ b.
Proof.
  induction s as [|c s [b Hb]]; [exists ""; reflexivity|]. simpl.
  destruct (rtrim s) as [|d r] eqn:Er.
  - destruct (is_ws c); [exists (String c s); reflexivity|exists s; reflexivity].
  - exists b. simpl. f_equal. rewrite Hb at 1. try rewrite Er. reflexivity.
Qed.

Lemma trim_decomp (s : string) : exists a b, s = a ++ trim s ++ b.
Proof.
  destruct (ltrim_decomp s) as [a Ha]. destruct (rtrim_decomp (ltrim s)) as [b Hb].
  exists a, b. unfold trim. rewrite <- Hb. exact Ha.
Qed.

Lemma ltrim_app_nonws (x w : string) (c : ascii) (w' : string) :
  w = String c w' -> is_ws c = false -> exists x', ltrim (x ++ w) = x' ++ w.
Proof.
  intros -> Hc. induction x as [|d x [x' IH]].
  - exists "". simpl. rewrite Hc. reflexivity.
  - simpl. destruct (is_ws d); [exists x'; exact IH|exists (String d x); reflexivity].
Qed.

Lemma rtrim_cons (c : ascii) (t : string) :
  rtrim t <> EmptyString -> rtrim (String c t) = String c (rtrim t).
Proof. intros H. simpl. destruct (rtrim t); [congruence|reflexivity]. Qed.

Lemma rtrim_cons_nonws (c : ascii) (t : string) :
  is_ws c = false -> rtrim (String c t) = String c (rtrim t).
Proof. intros H. simpl. destruct (rtrim t); [rewrite H|]; reflexivity. Qed.

(** Trailing whitespace after a whitespace-free non-empty [u] is all that
    [rtrim] removes. *)
Lemma rtrim_app_nows (z u y : string) :
  no_ws u = true -> u <> EmptyString -> rtrim (z ++ u ++ y) = z ++ u ++ rtrim y.
Proof.
  intros Hu Hne. induction z as [|d z IH].
  - simpl. clear Hne. induction u as [|c u IHu]; [reflexivity|].
    simpl in Hu. apply andb_prop in Hu as [Hc Hu]. apply negb_true_iff in Hc.
    change (String c u ++ y) with (String c (u ++ y)).
    rewrite rtrim_cons_nonws by exact Hc. rewrite (IHu Hu). reflexivity.
  - change (String d z ++ u ++ y) with (String d (z ++ u ++ y)).
    rewrite rtrim_cons; rewrite IH; [reflexivity|].
    destruct z as [|e z]; [destruct u; [congruence|simpl; discriminate]|simpl; discriminate].
Qed.

Lemma rtrim_idem (s : string) : rtrim (rtrim s) = rtrim s.
Proof.
  induction s as [|c s IH]; [reflexivity|]. simpl.
  destruct (rtrim s) as [|d r] eqn:Er.
  - destruct (is_ws c) eqn:Hc; [reflexivity|]. simpl. rewrite Hc. reflexivity.
  - assert (IH' : rtrim (String d r) = String d r) by (try rewrite Er in IH; exact IH).
    rewrite rtrim_cons; [rewrite IH'; reflexivity|rewrite IH'; discriminate].
Qed.

(** [s.trim().includes(sub)] is [s.includes(sub)] when [sub] is non-empty
    and free of whitespace. *)
Lemma includes_trim (s sub : string) :
  sub <> EmptyString -> no_ws sub = true -> includes (trim s) sub = includes s sub.
Proof.
  intros Hne Hws.
  destruct (includes s sub) eqn:E.
  - apply includes_spec in E as [x [y ->]]. apply includes_spec.
    destruct sub as [|c sub']; [congruence|].
    assert (Hc : is_ws c = false)
      by (simpl in Hws; apply andb_prop in Hws as [Hc _]; apply negb_true_iff in Hc; exact Hc).
    destruct (ltrim_app_nonws x (String c sub' ++ y) c (sub' ++ y) eq_refl Hc) as [x' Hx].
    exists x', (rtrim y). unfold trim. rewrite Hx. apply rtrim_app_nows; [exact Hws|exact Hne].
  - destruct (includes (trim s) sub) eqn:E'; [|reflexivity]. exfalso.
    apply includes_spec in E' as [x [y Hxy]]. destruct (trim_decomp s) as [a [b Hab]].
    rewrite Hxy in Hab.
    assert (Hin : includes s sub = true).
    { apply includes_spec. exists (a ++ x), (y ++ b).
      rewrite Hab. rewrite !append_assoc. reflexivity. }
    congruence.
Qed.

Lemma substring_prefix (x y : string) : String.substring 0 (String.length x) (x ++ y) = x.
Proof. exact (substring_app "" x y). Qed.

Lemma substring_suffix (x y : string) :
  String.substring (String.length x) (String.length y) (x ++ y) = y.
Proof. pose proof (substring_app x y "") as H. rewrite append_nil_r in H. exact H. Qed.

Lemma substring_0_min (k : nat) (s : string) :
  String.substring 0 k s = String.substring 0 (Nat.min k (String.length s)) s.
Proof.
  revert k; induction s as [|c s IH]; intros [|k]; simpl; try reflexivity.
  rewrite <- IH. reflexivity.
Qed.

Lemma substring_length_le (m k : nat) (s : string) :
  String.length (String.substring m k s) <= k.
Proof.
  revert m k; induction s as [|c s IH]; intros m k; destruct m, k; simpl; try lia;
    try (specialize (IH 0 k); lia); apply IH.
Qed.

Lemma last_index_char_app (c : ascii) (x y : string) :
  last_index_char c (x ++ y) =
  match last_index_char c y with
  | Some n => Some (String.length x + n)
  | None => last_index_char c x
  end.
Proof.
  induction x as [|a x IH]; simpl.
  - destruct (last_index_char c y); reflexivity.
  - rewrite IH. destruct (last_index_char c y); reflexivity.
Qed.

Lemma includes_char_cons (c a : ascii) (s : string) :
  includes (String a s) (String c EmptyString)
  = (Ascii.eqb c a || includes s (String c EmptyString))%bool.
Proof.
  unfold includes. rewrite index_of_eq. simpl.
  destruct (Ascii.eqb c a); simpl; [reflexivity|].
  destruct (index_of s (String c EmptyString)); reflexivity.
Qed.

Lemma last_index_char_none (c : ascii) (s : string) :
  includes s (String c EmptyString) = false -> last_index_char c s = None.
Proof.
  induction s as [|a s IH]; [reflexivity|]. rewrite includes_char_cons.
  intros H. apply orb_false_iff in H as [Ha Hs]. simpl. rewrite (IH Hs).
  rewrite Ascii.eqb_sym, Ha. reflexivity.
Qed.

Lemma last_index_char_lt (c : ascii) (s : string) (n : nat) :
  last_index_char c s = Some n -> n < String.length s.
Proof.
  revert n; induction s as [|a s IH]; intros n; simpl; [discriminate|].
  destruct (last_index_char c s) as [m|] eqn:E.
  - intros H; injection H as <-. specialize (IH m eq_refl). lia.
  - destruct (Ascii.eqb a c); [intros H; injection H as <-; lia|discriminate].
Qed.

Lemma split_first_no_sep (c : ascii) (s : string) :
  includes (split_first c s) (String c EmptyString) = false.
Proof.
  induction s as [|a s IH]; [reflexivity|]. simpl.
  destruct (Ascii.eqb_spec a c) as [->|Hac]; [reflexivity|].
  rewrite includes_char_cons, IH, orb_false_r.
  apply Ascii.eqb_neq. congruence.
Qed.

Lemma split_first_id (c : ascii) (s : string) :
  includes s (String c EmptyString) = false -> split_first c s = s.
Proof.
  induction s as [|a s IH]; [reflexivity|]. rewrite includes_char_cons.
  intros H. apply orb_false_iff in H as [Ha Hs]. simpl.
  rewrite Ascii.eqb_sym, Ha, (IH Hs). reflexivity.
Qed.

End StrFacts.

(* ================================================================== *)
(** ** Paths *)

Module PathFacts.
Import JS JSFacts StrFacts PathUtils.

Lemma lastIndexOf_split (x s : string) :
  includes s "/" = false -> lastIndexOf (x ++ "/" ++ s) "/"%char = Z.of_nat (String.length x).
Proof.
  intros Hs. unfold lastIndexOf. rewrite last_index_char_app.
  simpl. rewrite (last_index_char_none _ _ Hs). simpl. rewrite Nat.add_0_r. reflexivity.
Qed.

Lemma lastIndexOf_none (s : string) :
  includes s "/" = false -> lastIndexOf s "/"%char = (-1)%Z.
Proof. intros Hs. unfold lastIndexOf. rewrite (last_index_char_none _ _ Hs). reflexivity. Qed.

Lemma getParentFromPath_split (x s : string) :
  includes s "/" = false ->
  getParentFromPath (x ++ "/" ++ s) = x /\ getCurrentPathName (x ++ "/" ++ s) = s.
Proof.
  intros Hs. unfold getParentFromPath, getCurrentPathName. rewrite (lastIndexOf_split x s Hs).
  assert (Hlen : String.length (x ++ "/" ++ s) = String.length x + S (String.length s))
    by (rewrite !length_app; reflexivity).
  split.
  - unfold substring2. rewrite Hlen.
    replace (clamp (String.length x + S (String.length s)) 0%Z) with 0 by (unfold clamp; lia).
    rewrite clamp_le by lia. rewrite Nat.min_0_l, Nat.max_0_l, Nat.sub_0_r.
    apply substring_prefix.
  - unfold substring1, substring2. rewrite Hlen.
    replace (Z.of_nat (String.length x) + 1)%Z with (Z.of_nat (String.length x + 1)) by lia.
    rewrite !clamp_le by lia. rewrite Nat.min_l, Nat.max_r by lia.
    replace (String.length x + S (String.length s) - (String.length x + 1))
      with (String.length s) by lia.
    replace (x ++ "/" ++ s) with ((x ++ "/") ++ s) by (rewrite append_assoc; reflexivity).
    replace (String.length x + 1) with (String.length (x ++ "/"))
      by (rewrite length_app; reflexivity).
    apply substring_suffix.
Qed.

Lemma getParentFromPath_noslash (s : string) :
  includes s "/" = false -> getParentFromPath s = EmptyString /\ getCurrentPathName s = s.
Proof.
  intros Hs. unfold getParentFromPath, getCurrentPathName.
  rewrite (lastIndexOf_none s Hs). split.
  - unfold substring2.
    replace (clamp (String.length s) 0%Z) with 0 by (unfold clamp; lia).
    replace (clamp (String.length s) (-1)%Z) with 0 by (unfold clamp; lia).
    destruct s; reflexivity.
  - change (-1 + 1)%Z with 0%Z. unfold substring1, substring2.
    replace (clamp (String.length s) 0%Z) with 0 by (unfold clamp; lia).
    rewrite clamp_le by lia. rewrite Nat.min_0_l, Nat.max_0_l, Nat.sub_0_r.
    apply substring_0_length.
Qed.

Lemma getParentFromPath_shorter (s : string) :
  s <> EmptyString -> String.length (getParentFromPath s) < String.length s.
Proof.
  intros Hne. unfold getParentFromPath, lastIndexOf, substring2.
  destruct (last_index_char "/" s) as [n|] eqn:E.
  - pose proof (last_index_char_lt _ _ _ E) as Hn.
    replace (clamp (String.length s) 0%Z) with 0 by (unfold clamp; lia).
    rewrite clamp_le by lia. rewrite Nat.min_0_l, Nat.max_0_l, Nat.sub_0_r.
    pose proof (substring_length_le 0 n s). lia.
  - replace (clamp (String.length s) 0%Z) with 0 by (unfold clamp; lia).
    replace (clamp (String.length s) (-1)%Z) with 0 by (unfold clamp; lia).
    destruct s; [congruence|simpl; lia].
Qed.

Lemma getParentFromPath_le (s : string) :
  String.length (getParentFromPath s) <= String.length s.
Proof.
  destruct s as [|c s]; [vm_compute; lia|].
  pose proof (getParentFromPath_shorter (String c s) ltac:(discriminate)). lia.
Qed.

Lemma hierarchyLoop_step (f : nat) (cur : string) (acc : list hentry) :
  cur <> "/content" -> cur <> EmptyString ->
  hierarchyLoop (S f) cur acc
  = hierarchyLoop f (getParentFromPath cur) (acc ++ [mkHEntry (getCurrentPathName cur) cur]).
Proof.
  intros H1 H2. simpl. apply String.eqb_neq in H1, H2. rewrite H1, H2. reflexivity.
Qed.

Lemma hierarchyLoop_stop (f : nat) (cur : string) (acc : list hentry) :
  (String.eqb cur "/content" || String.eqb cur "")%bool = true ->
  hierarchyLoop (S f) cur acc = Some acc.
Proof.
  intros H. simpl.
  destruct (String.eqb cur "/content"), (String.eqb cur ""); try discriminate; reflexivity.
Qed.

Lemma hierarchyLoop_terminates (fuel : nat) :
  forall cur acc, String.length cur < fuel ->
  Forall (fun e => title e = getCurrentPathName (hpath e) /\
                   hpath e <> "/content" /\ hpath e <> EmptyString) acc ->
  exists h, hierarchyLoop fuel cur acc = Some h /\
    Forall (fun e => title e = getCurrentPathName (hpath e) /\
                     hpath e <> "/content" /\ hpath e <> EmptyString) h.
Proof.
  induction fuel as [|f IH]; intros cur acc Hl Hacc; [lia|].
  destruct (String.eqb_spec cur "/content") as [Ec|Ec].
  - exists acc. rewrite hierarchyLoop_stop; [auto|subst; reflexivity].
  - destruct (String.eqb_spec cur "") as [Ee|Ee].
    + exists acc. rewrite hierarchyLoop_stop; [auto|subst; reflexivity].
    + rewrite hierarchyLoop_step by assumption. apply IH.
      * pose proof (getParentFromPath_shorter cur Ee). lia.
      * apply Forall_app; split; [exact Hacc|]. constructor; [|constructor]. simpl; auto.
Qed.

Lemma join_snoc (r s : string) (segs : list string) :
  Hierarchy.join r (segs ++ [s]) = Hierarchy.join r segs ++ "/" ++ s.
Proof. unfold Hierarchy.join. rewrite fold_left_app. reflexivity. Qed.

Lemma chain_snoc (s : string) (segs : list string) : forall r,
  Hierarchy.chain r (segs ++ [s])
  = (Hierarchy.chain r segs ++ [mkHEntry s (Hierarchy.join r segs ++ "/" ++ s)])%list.
Proof.
  induction segs as [|s0 segs IH]; intros r; [reflexivity|].
  change (Hierarchy.chain r ((s0 :: segs) ++ [s]))
    with (mkHEntry s0 (r ++ "/" ++ s0) :: Hierarchy.chain (r ++ "/" ++ s0) (segs ++ [s])).
  rewrite IH. reflexivity.
Qed.

Lemma chain_paths (segs : list string) : forall r e,
  In e (Hierarchy.chain r segs) -> exists t, hpath e = r ++ "/" ++ t.
Proof.
  induction segs as [|s segs IH]; intros r e H; [destruct H|].
  destruct H as [<-|H].
  - exists s. reflexivity.
  - destruct (IH _ _ H) as [t Ht]. exists (s ++ "/" ++ t).
    rewrite Ht, append_assoc. reflexivity.
Qed.

Lemma length_join (segs : list string) : forall r,
  String.length r + List.length segs <= String.length (Hierarchy.join r segs).
Proof.
  induction segs as [|s segs IH]; intros r.
  - unfold Hierarchy.join. simpl. lia.
  - change (Hierarchy.join r (s :: segs)) with (Hierarchy.join (r ++ "/" ++ s) segs).
    specialize (IH (r ++ "/" ++ s)). rewrite !length_app in IH. simpl in IH |- *. lia.
Qed.

Lemma hierarchyLoop_chain (r : string) (segs : list string) :
  Forall (fun s => includes s "/" = false) segs ->
  (String.eqb r "/content" || String.eqb r "")%bool = true ->
  Forall (fun e => hpath e <> "/content" /\ hpath e <> EmptyString) (Hierarchy.chain r segs) ->
  forall fuel acc, List.length segs < fuel ->
  hierarchyLoop fuel (Hierarchy.join r segs) acc = Some (acc ++ rev (Hierarchy.chain r segs))%list.
Proof.
  induction segs as [|s segs IH] using rev_ind; intros Hs Hr Hc fuel acc Hl.
  - destruct fuel as [|f]; [simpl in Hl; lia|].
    rewrite hierarchyLoop_stop by exact Hr. simpl. rewrite app_nil_r. reflexivity.
  - apply Forall_app in Hs as [Hs Hs1]. inversion Hs1 as [|? ? Hsl _]; subst.
    rewrite chain_snoc in Hc |- *. apply Forall_app in Hc as [Hc Hc1].
    inversion Hc1 as [|? ? [Hn1 Hn2] _]; subst.
    rewrite List.length_app in Hl. simpl in Hl.
    destruct fuel as [|f]; [lia|].
    rewrite join_snoc, hierarchyLoop_step by assumption.
    destruct (getParentFromPath_split (Hierarchy.join r segs) s Hsl) as [-> ->].
    rewrite (IH Hs Hr Hc f _ ltac:(lia)).
    rewrite rev_app_distr. simpl. rewrite <- app_assoc. reflexivity.
Qed.

End PathFacts.

Lemma last_index_char_none_includes (c : ascii) (s : string) :
  JS.last_index_char c s = None -> JS.includes s (String c EmptyString) = false.
Proof.
  induction s as [|a s IH]; intros H; [reflexivity|]. simpl in H.
  destruct (JS.last_index_char c s) eqn:E; [discriminate|].
  destruct (Ascii.eqb a c) eqn:Ea; [discriminate|].
  rewrite StrFacts.includes_char_cons, Ascii.eqb_sym, Ea, (IH eq_refl). reflexivity.
Qed.

Lemma last_index_char_split (c : ascii) (s : string) (n : nat) :
  JS.last_index_char c s = Some n ->
  exists x y, s = x ++ String c y /\ JS.includes y (String c EmptyString) = false.
Proof.
  revert n; induction s as [|a s IH]; intros n H; [discriminate|]. simpl in H.
  destruct (JS.last_index_char c s) as [m|] eqn:E.
  - destruct (IH m eq_refl) as [x [y [-> Hy]]]. exists (String a x), y. split; [reflexivity|exact Hy].
  - destruct (Ascii.eqb_spec a c) as [->|]; [|discriminate].
    exists EmptyString, s. split; [reflexivity|]. apply last_index_char_none_includes; exact E.
Qed.

Lemma substring1_at (x t : string) :
  JS.substring1 (x ++ t) (Z.of_nat (String.length x)) = t.
Proof.
  unfold JS.substring1, JS.substring2. rewrite JSFacts.length_app.
  rewrite !clamp_le by lia. rewrite Nat.min_l, Nat.max_r by lia.
  replace (String.length x + String.length t - String.length x) with (String.length t) by lia.
  apply StrFacts.substring_suffix.
Qed.

(** X1, extra (getParentFromPath, getCurrentPathName). For a path containing a
    ['/'], the parent, a ['/'] and the current path name put back together
    give the path: the split is at the last ['/']. *)
Theorem getParentFromPath_roundtrip (path : string) :
  JS.includes path "/" = true ->
  PathUtils.getParentFromPath path ++ "/" ++ PathUtils.getCurrentPathName path = path.
Proof.
  intros H. destruct (JS.last_index_char "/" path) as [n|] eqn:E.
  - destruct (last_index_char_split _ _ _ E) as [x [y [-> Hy]]].
    change (x ++ String "/" y) with (x ++ "/" ++ y).
    destruct (PathFacts.getParentFromPath_split x y Hy) as [-> ->]. reflexivity.
  - apply last_index_char_none_includes in E. congruence.
Qed.

Lemma getParentFromPath_roundtrip_witness :
  JS.includes "/content/a/page" "/" = true /\
  PathUtils.getParentFromPath "/content/a/page" = "/content/a" /\
  PathUtils.getCurrentPathName "/content/a/page" = "page" /\
  PathUtils.getParentFromPath "/content/a/page" ++ "/"
    ++ PathUtils.getCurrentPathName "/content/a/page" = "/content/a/page".
Proof.
  split; [reflexivity|]. split; [vm_compute; reflexivity|]. split; [vm_compute; reflexivity|].
  exact (getParentFromPath_roundtrip "/content/a/page" eq_refl).
Defined.

(** X2, extra (getParentFromPath, getCurrentPathName). For a path without
    ['/'], the parent is the empty string and the current path name is the
    whole path. *)
Theorem getParentFromPath_no_slash (path : string) :
  JS.includes path "/" = false ->
  PathUtils.getParentFromPath path = EmptyString /\ PathUtils.getCurrentPathName path = path.
Proof. apply PathFacts.getParentFromPath_noslash. Qed.

Lemma getParentFromPath_no_slash_witness :
  JS.includes "page.html" "/" = false /\
  PathUtils.getParentFromPath "page.html" = EmptyString /\
  PathUtils.getCurrentPathName "page.html" = "page.html".
Proof.
  split; [reflexivity|]. exact (getParentFromPath_no_slash "page.html" eq_refl).
Defined.

(** X3, extra (getParentHierarchy). The [while] loop always ends, within as
    many iterations as the path has characters; every entry of the result
    has as title the current path name of its path, and no entry has the
    path ["/content"] or [""]. *)
Theorem getParentHierarchy_terminates (path : string) :
  exists h, PathUtils.getParentHierarchy path = Some h /\
  Forall (fun e => PathUtils.title e = PathUtils.getCurrentPathName (PathUtils.hpath e) /\
                   PathUtils.hpath e <> "/content" /\ PathUtils.hpath e <> EmptyString) h.
Proof.
  destruct (PathFacts.hierarchyLoop_terminates (S (String.length path))
              (PathUtils.getParentFromPath path) []
              ltac:(pose proof (PathFacts.getParentFromPath_le path); lia) (Forall_nil _))
    as [h [Hh Hf]].
  exists (rev h). unfold PathUtils.getParentHierarchy. rewrite Hh. split; [reflexivity|].
  apply Forall_rev, Hf.
Qed.

(** X4, extra (getParentHierarchy). For a path [/content/s1/.../sk/leaf] whose
    segments and leaf have no ['/'], the hierarchy is the list of the
    ancestors [/content/s1], [/content/s1/s2], ..., [/content/s1/.../sk],
    root first, each titled with its last segment ([/content] itself and
    the page are not in it). *)
Theorem getParentHierarchy_content (segs : list string) (leaf : string) :
  Forall (fun s => JS.includes s "/" = false) segs -> JS.includes leaf "/" = false ->
  PathUtils.getParentHierarchy (Hierarchy.join "/content" segs ++ "/" ++ leaf)
  = Some (Hierarchy.chain "/content" segs).
Proof.
  intros Hs Hl. unfold PathUtils.getParentHierarchy.
  destruct (PathFacts.getParentFromPath_split (Hierarchy.join "/content" segs) leaf Hl) as [-> _].
  assert (Hc : Forall (fun e => PathUtils.hpath e <> "/content" /\ PathUtils.hpath e <> EmptyString)
                 (Hierarchy.chain "/content" segs)).
  { apply Forall_forall. intros e He. destruct (PathFacts.chain_paths _ _ _ He) as [t ->].
    split; [|discriminate].
    intros E. apply (f_equal String.length) in E. rewrite !JSFacts.length_app in E.
    simpl in E. lia. }
  assert (Hf : List.length segs
               < S (String.length (Hierarchy.join "/content" segs ++ "/" ++ leaf))).
  { pose proof (PathFacts.length_join segs "/content"). rewrite !JSFacts.length_app.
    simpl in *. lia. }
  rewrite (PathFacts.hierarchyLoop_chain "/content" segs Hs eq_refl Hc _ [] Hf).
  simpl. rewrite rev_involutive. reflexivity.
Qed.

Lemma getParentHierarchy_content_witness :
  Forall (fun s => JS.includes s "/" = false) ["a"; "b"] /\
  JS.includes "page" "/" = false /\
  PathUtils.getParentHierarchy "/content/a/b/page"
  = Some [PathUtils.mkHEntry "a" "/content/a"; PathUtils.mkHEntry "b" "/content/a/b"].
Proof.
  split; [repeat constructor|]. split; [reflexivity|].
  exact (getParentHierarchy_content ["a"; "b"] "page"
           ltac:(repeat constructor) eq_refl).
Defined.

(** X5, extra (isMedia, both classes). Trimming never changes the answer:
    [isMedia] holds exactly when the path itself contains the media-prefix
    marker. *)
Theorem isMedia_untrimmed (p : string) :
  PathUtils.isMedia p = JS.includes p MEDIA_PREFIX /\
  ManifestGenerator.isMedia p = JS.includes p MEDIA_PREFIX.
Proof.
  unfold PathUtils.isMedia, ManifestGenerator.isMedia.
  split; apply StrFacts.includes_trim; (discriminate || reflexivity).
Qed.

(** X6, extra (isVideoUrl). For a non-empty whitespace-free identifier,
    [isVideoUrl] holds exactly when the url itself contains it. *)
Theorem isVideoUrl_untrimmed (VIDEOS_IDENTIFIER url : string) :
  VIDEOS_IDENTIFIER <> EmptyString -> JSFacts.no_ws VIDEOS_IDENTIFIER = true ->
  PathUtils.isVideoUrl VIDEOS_IDENTIFIER url = JS.includes url VIDEOS_IDENTIFIER.
Proof. intros Hne Hws. apply StrFacts.includes_trim; assumption. Qed.

Lemma isVideoUrl_untrimmed_witness :
  "youtube.com" <> EmptyString /\ JSFacts.no_ws "youtube.com" = true /\
  PathUtils.isVideoUrl "youtube.com" " https://www.youtube.com/embed/x " = true.
Proof.
  split; [discriminate|]. split; [reflexivity|].
  rewrite (isVideoUrl_untrimmed "youtube.com" " https://www.youtube.com/embed/x "
             ltac:(discriminate) eq_refl).
  vm_compute. reflexivity.
Defined.

(** X7, extra (getHashFromMedia, both classes). When the trimmed path has no
    ['.'], [indexOf] gives [-1], [substring] swaps its bounds, and the
    "hash" is the first [MEDIA_PREFIX.length] characters of the trimmed path. *)
Theorem getHashFromMedia_no_dot (p : string) :
  JS.includes (JS.trim p) "." = false ->
  PathUtils.getHashFromMedia p = String.substring 0 (String.length MEDIA_PREFIX) (JS.trim p) /\
  ManifestGenerator.getHashFromMedia p
    = String.substring 0 (String.length MEDIA_PREFIX) (JS.trim p).
Proof.
  intros H.
  enough (E : PathUtils.getHashFromMedia p
              = String.substring 0 (String.length MEDIA_PREFIX) (JS.trim p))
    by (split; exact E).
  assert (Hi : JS.indexOf (JS.trim p) "." = (-1)%Z)
    by (unfold JS.indexOf; unfold JS.includes in H;
        destruct (JS.index_of (JS.trim p) "."); [discriminate|reflexivity]).
  unfold PathUtils.getHashFromMedia. cbv zeta. rewrite Hi. unfold JS.substring2.
  replace (JS.clamp (String.length (JS.trim p)) (-1)) with 0 by (unfold JS.clamp; lia).
  replace (JS.clamp (String.length (JS.trim p)) (Z.of_nat (String.length MEDIA_PREFIX)))
    with (Nat.min (String.length MEDIA_PREFIX) (String.length (JS.trim p)))
    by (unfold JS.clamp; lia).
  rewrite Nat.min_0_r, Nat.max_0_r, Nat.sub_0_r.
  symmetry. apply StrFacts.substring_0_min.
Qed.

Lemma getHashFromMedia_no_dot_witness :
  JS.includes (JS.trim "/media_abc ") "." = false /\
  PathUtils.getHashFromMedia "/media_abc " = "/media_" /\
  ManifestGenerator.getHashFromMedia "/media_abc " = "/media_".
Proof.
  split; [reflexivity|].
  exact (getHashFromMedia_no_dot "/media_abc " eq_refl).
Defined.

(** X8, extra (extractMediaFromPath, both classes). On a path whose trimmed
    form has no media-prefix marker both copies return the trimmed path. *)
Theorem extractMediaFromPath_no_marker (p : string) :
  JS.includes (JS.trim p) MEDIA_PREFIX = false ->
  PathUtils.extractMediaFromPath p = JS.trim p /\
  ManifestGenerator.extractMediaFromPath p = JS.trim p.
Proof.
  intros H.
  assert (H' : JS.includes p MEDIA_PREFIX = false)
    by (rewrite <- (StrFacts.includes_trim p MEDIA_PREFIX ltac:(discriminate) eq_refl); exact H).
  split.
  - unfold PathUtils.extractMediaFromPath, JS.indexOf. cbv zeta. unfold JS.includes in H.
    destruct (JS.index_of (JS.trim p) MEDIA_PREFIX); [discriminate|]. apply substring1_neg.
  - unfold ManifestGenerator.extractMediaFromPath, JS.indexOf. unfold JS.includes in H'.
    destruct (JS.index_of p MEDIA_PREFIX); [discriminate|]. apply substring1_neg.
Qed.

Lemma extractMediaFromPath_no_marker_witness :
  JS.includes (JS.trim " /a/b.png ") MEDIA_PREFIX = false /\
  PathUtils.extractMediaFromPath " /a/b.png " = "/a/b.png" /\
  ManifestGenerator.extractMediaFromPath " /a/b.png " = "/a/b.png".
Proof.
  split; [reflexivity|]. exact (extractMediaFromPath_no_marker " /a/b.png " eq_refl).
Defined.

(** X9, extra (PathUtils.extractMediaFromPath). On a path whose trimmed form
    contains the media-prefix marker, the result is the suffix of the
    trimmed path that starts at the first occurrence of the marker; applying
    [extractMediaFromPath] again changes nothing. *)
Theorem extractMediaFromPath_marker (p : string) :
  JS.includes (JS.trim p) MEDIA_PREFIX = true ->
  exists x y,
    JS.trim p = x ++ PathUtils.extractMediaFromPath p /\
    PathUtils.extractMediaFromPath p = MEDIA_PREFIX ++ y /\
    (forall x' y', JS.trim p = x' ++ MEDIA_PREFIX ++ y' -> String.length x <= String.length x') /\
    PathUtils.extractMediaFromPath (PathUtils.extractMediaFromPath p)
    = PathUtils.extractMediaFromPath p.
Proof.
  intros H. unfold JS.includes in H.
  destruct (JS.index_of (JS.trim p) MEDIA_PREFIX) as [n|] eqn:E; [|discriminate].
  destruct (StrFacts.index_of_some _ _ _ E) as [x [y [Ht Hx]]].
  assert (Hex : PathUtils.extractMediaFromPath p = MEDIA_PREFIX ++ y).
  { unfold PathUtils.extractMediaFromPath, JS.indexOf. cbv zeta. rewrite E, Ht, <- Hx.
    apply substring1_at. }
  assert (Hy : JS.rtrim y = y).
  { pose proof (StrFacts.rtrim_idem (JS.ltrim p)) as Hi.
    change (JS.rtrim (JS.ltrim p)) with (JS.trim p) in Hi. rewrite Ht in Hi.
    rewrite (StrFacts.rtrim_app_nows x MEDIA_PREFIX y eq_refl ltac:(discriminate)) in Hi.
    apply StrFacts.append_cancel_l in Hi. apply StrFacts.append_cancel_l in Hi. exact Hi. }
  exists x, y. split; [rewrite Hex; exact Ht|]. split; [exact Hex|]. split.
  - intros x' y' Hs. rewrite Hx. exact (StrFacts.index_of_first _ _ _ _ _ E Hs).
  - rewrite Hex. unfold PathUtils.extractMediaFromPath. cbv zeta.
    assert (Htr : JS.trim (MEDIA_PREFIX ++ y) = MEDIA_PREFIX ++ y).
    { unfold JS.trim. change (JS.ltrim (MEDIA_PREFIX ++ y)) with (MEDIA_PREFIX ++ y).
      pose proof (StrFacts.rtrim_app_nows EmptyString MEDIA_PREFIX y eq_refl
                    ltac:(discriminate)) as Hr.
      transitivity (MEDIA_PREFIX ++ JS.rtrim y); [exact Hr|rewrite Hy; reflexivity]. }
    rewrite Htr. unfold JS.indexOf. rewrite StrFacts.index_of_eq, StrFacts.starts_with_app.
    exact (substring1_at EmptyString (MEDIA_PREFIX ++ y)).
Qed.

Lemma extractMediaFromPath_marker_witness :
  JS.includes (JS.trim " /a/media_1.png") MEDIA_PREFIX = true /\
  PathUtils.extractMediaFromPath " /a/media_1.png" = "/media_1.png" /\
  exists x y,
    JS.trim " /a/media_1.png" = x ++ PathUtils.extractMediaFromPath " /a/media_1.png" /\
    PathUtils.extractMediaFromPath " /a/media_1.png" = MEDIA_PREFIX ++ y /\
    (forall x' y', JS.trim " /a/media_1.png" = x' ++ MEDIA_PREFIX ++ y' ->
                   String.length x <= String.length x') /\
    PathUtils.extractMediaFromPath (PathUtils.extractMediaFromPath " /a/media_1.png")
    = PathUtils.extractMediaFromPath " /a/media_1.png".
Proof.
  split; [reflexivity|]. split; [vm_compute; reflexivity|].
  exact (extractMediaFromPath_marker " /a/media_1.png" eq_refl).
Defined.

(* ================================================================== *)
(** ** Resource lists *)

(** X10, extra (trimImagesPath). A normalised image path never contains a
    ['?']: the query string is cut off. *)
Theorem trimImagesPath_no_query (item : string) :
  JS.includes (ManifestGenerator.trimImagesPath item) "?" = false.
Proof. unfold ManifestGenerator.trimImagesPath. cbv zeta. apply StrFacts.split_first_no_sep. Qed.

(** X11, extra (trimImagesPath). A path that is already trimmed, has no ['?']
    and does not start with ['.'] is left unchanged. *)
Theorem trimImagesPath_normalized (item : string) :
  JS.trim item = item -> JS.includes item "?" = false -> JS.starts_with "." item = false ->
  ManifestGenerator.trimImagesPath item = item.
Proof.
  intros Ht Hq Hd. unfold ManifestGenerator.trimImagesPath. cbv zeta. rewrite Ht.
  destruct item as [|c s]; [reflexivity|].
  assert (Hc : Ascii.eqb c "." = false).
  { change (Ascii.eqb "." c && JS.starts_with "" s = false) in Hd.
    rewrite Ascii.eqb_sym. destruct (Ascii.eqb "." c); [discriminate Hd|reflexivity]. }
  cbv beta iota. rewrite Hc. apply StrFacts.split_first_id; exact Hq.
Qed.

Lemma trimImagesPath_normalized_witness :
  JS.trim "/img/a.png" = "/img/a.png" /\ JS.includes "/img/a.png" "?" = false /\
  JS.starts_with "." "/img/a.png" = false /\
  ManifestGenerator.trimImagesPath "/img/a.png" = "/img/a.png".
Proof.
  split; [reflexivity|]. split; [reflexivity|]. split; [reflexivity|].
  exact (trimImagesPath_normalized "/img/a.png" eq_refl eq_refl eq_refl).
Defined.

Lemma NoDup_snoc {A} (l : list A) (a : A) : NoDup l -> ~ In a l -> NoDup (l ++ [a]).
Proof.
  induction 1 as [|x l Hx Hl IH]; intros Ha; simpl; [constructor; [intros []|constructor]|].
  constructor.
  - rewrite in_app_iff. simpl. intros [H|[H|[]]]; [contradiction|]. apply Ha; left; symmetry; exact H.
  - apply IH. intros H; apply Ha; right; exact H.
Qed.

Lemma set_add_eq (acc : list string) (a : string) :
  ManifestGenerator.set_add acc a
  = if existsb (String.eqb a) acc then acc else (acc ++ [a])%list.
Proof. reflexivity. Qed.

Lemma existsb_eqb_in (a : string) (acc : list string) :
  existsb (String.eqb a) acc = true <-> In a acc.
Proof.
  rewrite existsb_exists. split.
  - intros [y [Hy Hya]]. apply String.eqb_eq in Hya. subst y. exact Hy.
  - intros H. exists a. split; [exact H|apply String.eqb_refl].
Qed.

Lemma fold_set_add_spec (l : list string) : forall acc, NoDup acc ->
  NoDup (fold_left ManifestGenerator.set_add l acc) /\
  (forall x, In x (fold_left ManifestGenerator.set_add l acc) <-> In x acc \/ In x l).
Proof.
  induction l as [|a l IH]; intros acc Hacc.
  - split; [exact Hacc|]. intros x; simpl; tauto.
  - change (fold_left ManifestGenerator.set_add (a :: l) acc)
      with (fold_left ManifestGenerator.set_add l (ManifestGenerator.set_add acc a)).
    rewrite set_add_eq. destruct (existsb (String.eqb a) acc) eqn:E.
    + apply existsb_eqb_in in E.
      destruct (IH acc Hacc) as [Hn Hi]. split; [exact Hn|].
      intros x. rewrite Hi. simpl. intuition congruence.
    + assert (Hna : ~ In a acc) by (rewrite <- existsb_eqb_in; congruence).
      destruct (IH (acc ++ [a])%list (NoDup_snoc acc a Hacc Hna)) as [Hn Hi].
      split; [exact Hn|]. intros x. rewrite Hi, in_app_iff. simpl. tauto.
Qed.

Lemma fold_set_add_nodup (l : list string) : forall acc,
  NoDup (acc ++ l) -> fold_left ManifestGenerator.set_add l acc = (acc ++ l)%list.
Proof.
  induction l as [|a l IH]; intros acc H.
  - rewrite app_nil_r. reflexivity.
  - change (fold_left ManifestGenerator.set_add (a :: l) acc)
      with (fold_left ManifestGenerator.set_add l (ManifestGenerator.set_add acc a)).
    rewrite set_add_eq.
    assert (Hna : ~ In a acc)
      by (intros Hin; apply (NoDup_remove_2 acc l a H); apply in_or_app; left; exact Hin).
    destruct (existsb (String.eqb a) acc) eqn:E; [apply existsb_eqb_in in E; contradiction|].
    rewrite IH; [rewrite <- app_assoc; reflexivity|]. rewrite <- app_assoc. exact H.
Qed.

(** X12, extra (createManifest, [new Set([...])]). The resource set of a page
    has no duplicates and holds exactly the resources of its lists. *)
Theorem new_Set_spec (l : list string) :
  NoDup (ManifestGenerator.new_Set l) /\
  (forall x, In x (ManifestGenerator.new_Set l) <-> In x l).
Proof.
  unfold ManifestGenerator.new_Set.
  destruct (fold_set_add_spec l [] (NoDup_nil _)) as [Hn Hi].
  split; [exact Hn|]. intros x. rewrite Hi. simpl. tauto.
Qed.

(** X13, extra (createManifest, [new Set([...])]). A resource list without
    duplicates keeps its order in the resource set. *)
Theorem new_Set_nodup (l : list string) :
  NoDup l -> ManifestGenerator.new_Set l = l.
Proof. intros H. exact (fold_set_add_nodup l [] H). Qed.

Lemma new_Set_nodup_witness :
  NoDup ["/b.css"; "/a.js"] /\ ManifestGenerator.new_Set ["/b.css"; "/a.js"] = ["/b.css"; "/a.js"].
Proof.
  assert (H : NoDup ["/b.css"; "/a.js"])
    by (constructor; [simpl; intros [H|[]]; discriminate|constructor; [intros []|constructor]]).
  split; [exact H|]. exact (new_Set_nodup _ H).
Defined.

(* ================================================================== *)
(** ** Entries of a page *)

Section PageEntries.
Import ManifestGenerator Trace.

Variable fetchDataWithMethod : string -> string -> string -> option (option string).
Variable isFileDirty : string -> bool.
Variable dateGetTime : string -> ManifestGenerator.number.
Variable clock : nat -> Z.

Lemma resourceEntry_path (pp r : string) (d : option string) (lm : Z) :
  path (fst (resourceEntry dateGetTime pp r d lm)) = resource_path pp r.
Proof.
  unfold resourceEntry, resource_path. cbv zeta.
  destruct (isMedia (JS.trim r)); [reflexivity|].
  destruct d as [d|]; [destruct (JS.truthy_str d)|]; reflexivity.
Qed.

Lemma resourcesLoop_paths (host pp : string) (rs : list string) :
  forall acc lm,
  map path (fst (resourcesLoop fetchDataWithMethod isFileDirty dateGetTime host pp rs acc lm))
  = (map path acc ++ map (resource_path pp) (filter (kept fetchDataWithMethod isFileDirty host) rs))%list.
Proof.
  induction rs as [|r rs IH]; intros acc lm.
  - simpl. rewrite app_nil_r. reflexivity.
  - simpl. unfold kept at 1.
    assert (Hpush : forall d,
      map path (fst (let '(e, lm2) := resourceEntry dateGetTime pp r d lm in
                     resourcesLoop fetchDataWithMethod isFileDirty dateGetTime host pp rs
                       (acc ++ [e]) lm2))
      = (map path acc ++ map (resource_path pp) (r :: filter (kept fetchDataWithMethod isFileDirty host) rs))%list).
    { intros d. pose proof (resourceEntry_path pp r d lm) as Hp.
      destruct (resourceEntry dateGetTime pp r d lm) as [e lm2].
      rewrite IH, map_app, <- app_assoc. simpl in Hp |- *. rewrite Hp. reflexivity. }
    destruct (fetchDataWithMethod host (JS.trim r) "HEAD") as [d|].
    + apply Hpush.
    + destruct (isFileDirty (JS.slice1 (JS.trim r))); simpl; [apply Hpush|apply IH].
Qed.

Lemma createEntries_paths_gen (host p : string) (rs : list string) (upd : bool)
    (n : nat) (es : list entry) (lm : Z) (n' : nat) :
  createEntries fetchDataWithMethod isFileDirty dateGetTime clock host p rs upd n
  = Ok (es, lm) n' ->
  map path es = (p ++ ".html")%string
                :: map (resource_path (PathUtils.getParentFromPath p)) (filter (kept fetchDataWithMethod isFileDirty host) rs).
Proof.
  unfold createEntries, bind, ret. cbv zeta.
  destruct (getPageJsonEntry fetchDataWithMethod dateGetTime clock host p upd n)
    as [pe k|] eqn:Ep; [|discriminate].
  intros H. injection H as Hr _. apply (f_equal fst) in Hr. simpl in Hr.
  rewrite <- Hr, resourcesLoop_paths. simpl.
  rewrite (proj2 (getPageJsonEntry_shape fetchDataWithMethod dateGetTime clock _ _ _ _ _ _ Ep)).
  reflexivity.
Qed.

(** X14, extra (createEntries). The entries of a page, in order: its HTML page,
    then its resources in resource-set order, skipping those whose probe
    rejects and that are not dirty in git; a media resource is placed
    under the page's parent path. *)
Theorem createEntries_paths (host p : string) (rs : list string) (upd : bool)
    (n : nat) (es : list entry) (lm : Z) (n' : nat) :
  createEntries fetchDataWithMethod isFileDirty dateGetTime clock host p rs upd n
  = Ok (es, lm) n' ->
  map path es = (p ++ ".html")%string
                :: map (resource_path (PathUtils.getParentFromPath p)) (filter (kept fetchDataWithMethod isFileDirty host) rs).
Proof. exact (createEntries_paths_gen host p rs upd n es lm n'). Qed.

(** X15, extra (createEntries, getPageJsonEntry). [createEntries] fails exactly
    when the HEAD probe of the page's HTML rejects, and then with that
    error; an unavailable resource never makes it fail. *)
Theorem createEntries_failure (host p : string) (rs : list string) (upd : bool) (n : nat) :
  match createEntries fetchDataWithMethod isFileDirty dateGetTime clock host p rs upd n with
  | Err e => e = Unavailable /\ fetchDataWithMethod host (p ++ ".html") "HEAD" = None
  | Ok _ _ => fetchDataWithMethod host (p ++ ".html") "HEAD" <> None
  end.
Proof.
  unfold createEntries, getPageJsonEntry, fetchHead, bind, ret, throw, now. cbv zeta.
  destruct (fetchDataWithMethod host (p ++ ".html") "HEAD") as [d|].
  - destruct upd; [|destruct d as [d|]; [destruct (JS.truthy_str d)|]]; discriminate.
  - auto.
Qed.

End PageEntries.

Lemma createEntries_paths_witness :
  exists es lm n',
    ManifestGenerator.createEntries Scenarios.fetch_gone Scenarios.never_dirty
      Scenarios.date_table (Scenarios.clock_from 0) "host" "/a/b/page"
      ["/x.js"; " /gone.js"; "/media_7.png"] false 0 = ManifestGenerator.Ok (es, lm) n' /\
    map ManifestGenerator.path es = ["/a/b/page.html"; "/x.js"; "/a/b/media_7.png"].
Proof.
  eexists _, _, _. split; [reflexivity|].
  refine (eq_trans (createEntries_paths Scenarios.fetch_gone Scenarios.never_dirty
    Scenarios.date_table (Scenarios.clock_from 0) "host" "/a/b/page"
    ["/x.js"; " /gone.js"; "/media_7.png"] false 0 _ _ _ eq_refl) _).
  vm_compute. reflexivity.
Defined.

(* ================================================================== *)
(** ** Keys of the manifest *)

Section ManifestKeys.
Import ManifestGenerator Trace.

Lemma fold_set_head (l : list entry) :
  forall k v m, exists v' m', fold_left set_by_path l ((k, v) :: m) = (k, v') :: m'.
Proof.
  induction l as [|e l IH]; intros k v m; [exists v, m; reflexivity|].
  simpl. unfold set_by_path at 2. simpl.
  destruct (String.eqb_spec (path e) k) as [->|_]; apply IH.
Qed.

Lemma map_set_keep (m : emap) (k x : string) (v : entry) :
  x = k \/ In x (map fst m) -> In x (map fst (map_set m k v)).
Proof.
  induction m as [|[k' v'] m IH]; simpl; [intuition|].
  destruct (String.eqb_spec k k') as [->|_]; simpl; intuition.
Qed.

Lemma fold_set_keys (l : list entry) :
  forall m x, In x (map fst m) \/ In x (map path l) ->
  In x (map fst (fold_left set_by_path l m)).
Proof.
  induction l as [|e l IH]; intros m x H; simpl in *; [tauto|].
  apply IH. unfold set_by_path.
  destruct H as [H|[H|H]]; [left; apply map_set_keep; right; exact H
                          |left; apply map_set_keep; left; symmetry; exact H
                          |right; exact H].
Qed.

Lemma createManifest_decomp
    (fetchDataWithMethod : string -> string -> string -> option (option string))
    (isFileDirty : string -> bool) (dateGetTime : string -> ManifestGenerator.number) (clock : nat -> Z)
    (fuel : nat) (host : string) (mm : string -> option metadata)
    (p : string) (flags : string -> bool) (add : list string) (n : nat)
    (m : manifest) (ts : Z) (n' : nat) (data : metadata) :
  createManifest fetchDataWithMethod isFileDirty dateGetTime clock
    fuel host mm p flags add n = Ok (m, ts) n' ->
  mm p = Some data ->
  exists es lm n1 lf,
    createEntries fetchDataWithMethod isFileDirty dateGetTime clock host (dpath data)
      (resourceSet data add) (flags (dpath data)) n = Ok (es, lm) n1 /\
    entries m = map_values (fold_left set_by_path (es ++ lf) []).
Proof.
  intros H Hd. destruct fuel as [|fuel]; [discriminate|].
  simpl in H. rewrite Hd in H.
  unfold bind at 1 in H.
  destruct (createEntries _ _ _ _ _ _ _ _ n) as [[es lm] n1|] eqn:Ece; [|discriminate].
  unfold bind at 1 in H.
  destruct (mergeFragments _ _ _ _ _ n1) as [[acc' flm] n2|] eqn:Emf; [|discriminate].
  injection H as <- <- <-.
  destruct (mergeFragments_processed _ _ _ _ _ _ _ _ _ Emf) as [lf [_ Ha]].
  exists es, lm, n1, lf. split; [reflexivity|].
  simpl entries. rewrite fold_left_app. rewrite Ha. reflexivity.
Qed.

(** X16, extra (createManifest). The first entry of a completed manifest is the
    HTML page of the page's metadata: fragment entries never displace it. *)
Theorem createManifest_page_first
    (fetchDataWithMethod : string -> string -> string -> option (option string))
    (isFileDirty : string -> bool) (dateGetTime : string -> ManifestGenerator.number) (clock : nat -> Z)
    (fuel : nat) (host : string) (mm : string -> option metadata)
    (p : string) (flags : string -> bool) (add : list string) (n : nat)
    (m : manifest) (ts : Z) (n' : nat) (data : metadata) :
  createManifest fetchDataWithMethod isFileDirty dateGetTime clock
    fuel host mm p flags add n = Ok (m, ts) n' ->
  mm p = Some data ->
  exists rest, map path (entries m) = (dpath data ++ ".html")%string :: rest.
Proof.
  intros H Hd.
  destruct (createManifest_decomp _ _ _ _ _ _ _ _ _ _ _ _ _ _ _ H Hd)
    as [es [lm [n1 [lf [Ece Hm]]]]].
  pose proof (createEntries_paths_gen _ _ _ _ _ _ _ _ _ _ _ _ Ece) as Hp.
  destruct es as [|pe es]; [discriminate|]. simpl in Hp. injection Hp as Hpe _.
  rewrite Hm.
  change (fold_left set_by_path ((pe :: es) ++ lf) [])
    with (fold_left set_by_path (es ++ lf) [(path pe, pe)]).
  assert (K1 : keyed [(path pe, pe)])
    by (split; [constructor; [reflexivity|constructor]|constructor; [intros []|constructor]]).
  destruct (fold_set_by_path (es ++ lf) "" _ K1) as [Hkey _].
  rewrite (keyed_paths _ Hkey).
  pose proof (fold_set_head (es ++ lf) (path pe) pe []) as [v' [m' Hf]].
  rewrite Hf. exists (map fst m'). simpl. rewrite Hpe. reflexivity.
Qed.

(** X17, extra (createManifest). Every resource of the page's resource set whose
    probe answers, or that is dirty in git, has an entry in the completed
    manifest: merged fragments replace entries but never remove a path. *)
Theorem createManifest_resources_present
    (fetchDataWithMethod : string -> string -> string -> option (option string))
    (isFileDirty : string -> bool) (dateGetTime : string -> ManifestGenerator.number) (clock : nat -> Z)
    (fuel : nat) (host : string) (mm : string -> option metadata)
    (p : string) (flags : string -> bool) (add : list string) (n : nat)
    (m : manifest) (ts : Z) (n' : nat) (data : metadata) (r : string) :
  createManifest fetchDataWithMethod isFileDirty dateGetTime clock
    fuel host mm p flags add n = Ok (m, ts) n' ->
  mm p = Some data ->
  In r (resourceSet data add) ->
  (fetchDataWithMethod host (JS.trim r) "HEAD" <> None \/
   isFileDirty (JS.slice1 (JS.trim r)) = true) ->
  In (resource_path (PathUtils.getParentFromPath (dpath data)) r) (map path (entries m)).
Proof.
  intros H Hd Hr Hk.
  destruct (createManifest_decomp _ _ _ _ _ _ _ _ _ _ _ _ _ _ _ H Hd)
    as [es [lm [n1 [lf [Ece Hm]]]]].
  pose proof (createEntries_paths_gen _ _ _ _ _ _ _ _ _ _ _ _ Ece) as Hp.
  assert (K0 : keyed []) by (split; constructor).
  destruct (fold_set_by_path (es ++ lf) "" [] K0) as [Hkey _].
  rewrite Hm, (keyed_paths _ Hkey).
  apply fold_set_keys. right. rewrite map_app. apply in_or_app. left.
  rewrite Hp. right. apply in_map. apply filter_In. split; [exact Hr|].
  unfold kept. destruct (fetchDataWithMethod host (JS.trim r) "HEAD"); [reflexivity|].
  destruct Hk as [Hk|Hk]; [congruence|exact Hk].
Qed.

End ManifestKeys.

Lemma createManifest_page_first_witness :
  exists m ts n',
    ManifestGenerator.createManifest Scenarios.fetch_no_header Scenarios.never_dirty
      Scenarios.date_table (Scenarios.clock_from 0) 3 "host" Scenarios.mm_frag "/a/b/page"
      Scenarios.no_updates [] 0 = ManifestGenerator.Ok (m, ts) n' /\
    Scenarios.mm_frag "/a/b/page" = Some (Scenarios.md "/a/b/page" [] ["/frag"]) /\
    exists rest, map ManifestGenerator.path (ManifestGenerator.entries m) = "/a/b/page.html" :: rest.
Proof.
  destruct (ManifestGenerator.createManifest Scenarios.fetch_no_header Scenarios.never_dirty
      Scenarios.date_table (Scenarios.clock_from 0) 3 "host" Scenarios.mm_frag "/a/b/page"
      Scenarios.no_updates [] 0) as [[m ts] n'|e] eqn:E; [|vm_compute in E; discriminate].
  exists m, ts, n'. split; [reflexivity|]. split; [reflexivity|].
  exact (createManifest_page_first Scenarios.fetch_no_header Scenarios.never_dirty
    Scenarios.date_table (Scenarios.clock_from 0) 3 "host" Scenarios.mm_frag "/a/b/page"
    Scenarios.no_updates [] 0 m ts n' (Scenarios.md "/a/b/page" [] ["/frag"]) E eq_refl).
Defined.

Lemma createManifest_resources_present_witness :
  exists m ts n',
    ManifestGenerator.createManifest Scenarios.fetch_gone Scenarios.never_dirty
      Scenarios.date_table (Scenarios.clock_from 0) 3 "host" Scenarios.mm_frag "/a/b/page"
      Scenarios.no_updates ["/media_9.png"; "/x.js"] 0 = ManifestGenerator.Ok (m, ts) n' /\
    In "/media_9.png"
      (Trace.resourceSet (Scenarios.md "/a/b/page" [] ["/frag"]) ["/media_9.png"; "/x.js"]) /\
    In "/a/b/media_9.png" (map ManifestGenerator.path (ManifestGenerator.entries m)).
Proof.
  assert (Hr : In "/media_9.png"
      (Trace.resourceSet (Scenarios.md "/a/b/page" [] ["/frag"]) ["/media_9.png"; "/x.js"]))
    by (vm_compute; auto).
  assert (Hk : Scenarios.fetch_gone "host" (JS.trim "/media_9.png") "HEAD" <> None \/
               Scenarios.never_dirty (JS.slice1 (JS.trim "/media_9.png")) = true)
    by (left; vm_compute; discriminate).
  destruct (ManifestGenerator.createManifest Scenarios.fetch_gone Scenarios.never_dirty
      Scenarios.date_table (Scenarios.clock_from 0) 3 "host" Scenarios.mm_frag "/a/b/page"
      Scenarios.no_updates ["/media_9.png"; "/x.js"] 0) as [[m ts] n'|e] eqn:E;
    [|vm_compute in E; discriminate].
  exists m, ts, n'. split; [reflexivity|]. split; [exact Hr|].
  pose proof (createManifest_resources_present Scenarios.fetch_gone Scenarios.never_dirty
    Scenarios.date_table (Scenarios.clock_from 0) 3 "host" Scenarios.mm_frag "/a/b/page"
    Scenarios.no_updates ["/media_9.png"; "/x.js"] 0 m ts n'
    (Scenarios.md "/a/b/page" [] ["/frag"]) "/media_9.png" E eq_refl Hr Hk) as Hin.
  assert (Hp : Trace.resource_path
                 (PathUtils.getParentFromPath
                    (ManifestGenerator.dpath (Scenarios.md "/a/b/page" [] ["/frag"])))
                 "/media_9.png" = "/a/b/media_9.png") by (vm_compute; reflexivity).
  rewrite Hp in Hin. exact Hin.
Defined.
